(** * pyvlx: the interface to the KLF 200 gateway

    A shallow embedding of [pyvlx/interface.py] (class [Interface]), which
    [PyVLX.connect] and [PyVLX.disconnect] of [pyvlx/pyvlx.py] call as
    [refresh_token] and [disconnect].  Python values decoded from JSON are
    the inductive type [json]; exceptions are values of [exn]; the instance
    attribute [self.token] and the HTTP requests issued through
    [requests.post] live in an explicit [world] that every method threads. *)

From Stdlib Require Import ZArith List String Ascii Bool Lia.
Import ListNotations.
Local Open Scope string_scope.
Local Open Scope Z_scope.

(** ** Python values *)

(** A float as [json.loads] reads it: the decimal literal [m * 10^e], or one
    of the literals [NaN], [Infinity], [-Infinity] that the decoder accepts. *)
Inductive pyfloat : Type :=
| FDec (m e : Z)
| FNaN
| FInf (negative : bool).

Set Warnings "-register-all".

(** What [json.loads] can return: [None], [bool], [int], [float], [str],
    [list], [dict].  A dict is kept as its items in insertion order. *)
Inductive json : Type :=
| JNull
| JBool (b : bool)
| JInt (z : Z)
| JFloat (f : pyfloat)
| JStr (s : string)
| JList (l : list json)
| JDict (d : list (string * json)).

(** [float(literal) == 0.0]: a decimal literal is read as zero exactly when
    its magnitude is at most half the smallest subnormal double, 2^-1075. *)
Definition float_is_zero (f : pyfloat) : bool :=
  match f with
  | FDec m e =>
      if m =? 0 then true
      else if 0 <=? e then false
      else Z.abs m * 2 ^ 1075 <=? 10 ^ (- e)
  | FNaN => false
  | FInf _ => false
  end.

(** [bool(v)], the test behind [if v], [not v] and [a and b]. *)
Definition truthy (v : json) : bool :=
  match v with
  | JNull => false
  | JBool b => b
  | JInt z => negb (z =? 0)
  | JFloat f => negb (float_is_zero f)
  | JStr s => negb (s =? EmptyString)%string
  | JList l => match l with [] => false | _ :: _ => true end
  | JDict d => match d with [] => false | _ :: _ => true end
  end.

(** [isinstance(v, list)]. *)
Definition isinstance_list (v : json) : bool :=
  match v with JList _ => true | _ => false end.

(** [isinstance(v, int)]; [bool] is a subclass of [int]. *)
Definition isinstance_int (v : json) : bool :=
  match v with JInt _ | JBool _ => true | _ => false end.

(** [isinstance(v, str)]. *)
Definition isinstance_str (v : json) : bool :=
  match v with JStr _ => true | _ => false end.

(** The numeric value of an [int] ([True] is 1, [False] is 0). *)
Definition int_value (v : json) : option Z :=
  match v with
  | JInt z => Some z
  | JBool b => Some (if b then 1 else 0)
  | _ => None
  end.

(** [v in codes] for a list of int literals [codes], [v] an int. *)
Definition in_int_list (v : json) (codes : list Z) : bool :=
  match int_value v with
  | Some z => existsb (Z.eqb z) codes
  | None => false
  end.

(** [d[key]] on the items of a dict. *)
Fixpoint dict_get (key : string) (d : list (string * json)) : option json :=
  match d with
  | [] => None
  | (k, v) :: rest => if (k =? key)%string then Some v else dict_get key rest
  end.

(** ** Exceptions *)

(** The operand a [TypeError] complains about. *)
Inductive type_error : Type :=
| ConcatStr (operand : json)        (* 'Bearer ' + operand, operand not a str *)
| NotIterable (container : json)    (* key in container *)
| BadSubscript (container : json).  (* container[key], key a str *)

(** Modelled from the spec: the classes [PyVLXException] and [InvalidToken]
    of [pyvlx/exception.py], which [interface.py] imports; a [PyVLXException]
    carries its message (here the format string and the argument given to
    [format]), an [InvalidToken] the error code.  The other constructors are
    the exception classes of the Python libraries the module meets. *)
Inductive exn : Type :=
| PyVLXException (description : string) (arg : option json)
| InvalidToken (error_code : json)
| AsyncioTimeoutError
| AiohttpClientError
| OSError
| JSONDecodeError
| TypeError (t : type_error)
| KeyError (key : string)
| OtherError (cls : string).

(** How a call ends: it returns a value or raises. *)
Inductive outcome (A : Type) : Type :=
| Return (a : A)
| Raise (e : exn).
Arguments Return {A} a.
Arguments Raise {A} e.

Definition bind_outcome {A B : Type} (c : outcome A) (k : A -> outcome B) : outcome B :=
  match c with
  | Return a => k a
  | Raise e => Raise e
  end.

Notation "x <- c ;; k" := (bind_outcome c (fun x => k))
  (at level 61, c at next level, right associativity).

(** [key in container], [key] a str. *)
Definition py_in (key : string) (container : json) : outcome bool :=
  match container with
  | JDict d => Return (match dict_get key d with Some _ => true | None => false end)
  | JList l =>
      Return (existsb (fun x => match x with JStr s => (s =? key)%string | _ => false end) l)
  | JStr s => Return (match index 0 key s with Some _ => true | None => false end)
  | _ => Raise (TypeError (NotIterable container))
  end.

(** [container[key]], [key] a str. *)
Definition py_getitem (container : json) (key : string) : outcome json :=
  match container with
  | JDict d =>
      match dict_get key d with
      | Some v => Return v
      | None => Raise (KeyError key)
      end
  | _ => Raise (TypeError (BadSubscript container))
  end.

(** ** The static methods of [Interface] *)

(** [response.find(c)]: the index of the first [c], or -1. *)
Fixpoint find (c : ascii) (response : string) : Z :=
  match response with
  | EmptyString => -1
  | String a rest =>
      if Ascii.eqb a c then 0
      else let i := find c rest in if i <? 0 then -1 else i + 1
  end.

(** [response[n:]] for [0 <= n]. *)
Fixpoint slice_from (n : nat) (response : string) : string :=
  match n, response with
  | O, _ => response
  | S n', EmptyString => EmptyString
  | S n', String _ rest => slice_from n' rest
  end.

Definition fix_response (response : string) : string :=
  let index := find "{"%char response in
  if 0 <? index then slice_from (Z.to_nat index) response
  else response.

Definition create_api_url (host verb : string) : string :=
  "http://" ++ host ++ "/api/v1/" ++ verb.

Definition create_headers (add_authorization_token : bool) (token : json)
  : outcome (list (string * string)) :=
  let headers := [("Content-Type", "application/json")] in
  if add_authorization_token then
    match token with
    | JStr t => Return (headers ++ [("Authorization", ("Bearer " ++ t)%string)])%list
    | _ => Raise (TypeError (ConcatStr token))
    end
  else Return headers.

(** [params] is [JNull] for Python's [None]. *)
Definition create_body (action : string) (params : json) : json :=
  let body := [("action", JStr action)] in
  match params with
  | JNull => JDict body
  | _ => JDict (body ++ [("params", params)])%list
  end.

Definition auth_failure_codes : list Z := [402; 403; 405; 406].

(** The exception of the first test of [evaluate_errors]. *)
Definition could_not_evaluate (json_response : json) : outcome unit :=
  Raise (PyVLXException "Could not evaluate errors {0}" (Some json_response)).

Definition evaluate_errors (json_response : json) : outcome unit :=
  let could_not_evaluate := could_not_evaluate json_response in
  present <- py_in "errors" json_response ;;
  if negb present then could_not_evaluate
  else
    errors <- py_getitem json_response "errors" ;;
    if negb (isinstance_list errors) then could_not_evaluate
    else if negb (truthy errors) then could_not_evaluate
    else
      match errors with
      | JList (first_error :: _) =>
          if negb (isinstance_int first_error) then could_not_evaluate
          else if in_int_list first_error auth_failure_codes
          then Raise (InvalidToken first_error)
          else Raise (PyVLXException "Unknown error code {0}" (Some first_error))
      | _ => could_not_evaluate (* not reached: [errors] is a non-empty list *)
      end.

(** The test ['errors' in json_response and json_response['errors']]. *)
Definition has_truthy (key : string) (json_response : json) : outcome bool :=
  present <- py_in key json_response ;;
  if present then (v <- py_getitem json_response key ;; Return (truthy v))
  else Return false.

Definition evaluate_response (json_response : json) : outcome unit :=
  errors <- has_truthy "errors" json_response ;;
  if errors then evaluate_errors json_response
  else
    has_result <- py_in "result" json_response ;;
    if negb has_result then
      Raise (PyVLXException "no element result  found in response: {0}"
               (Some json_response))
    else
      result <- py_getitem json_response "result" ;;
      if negb (truthy result) then
        Raise (PyVLXException "Request failed {0}" (Some json_response))
      else Return tt.

(** ** The interface object and the network *)

(** The attributes of [self.config] that the interface reads. *)
Record Config : Type := { host : string; password : string }.

(** One call of [requests.post(url, data=json.dumps(body), headers=headers)];
    [data] is the body that [json.dumps] serialises. *)
Record request : Type :=
  { url : string; data : json; headers : list (string * string) }.

(** What [requests.post] does: it returns a response with text [r.text], or
    it raises. *)
Inductive post_result : Type :=
| Reply (text : string)
| Throws (e : exn).

(** [config] and [token] are the attributes of the [Interface] object
    ([token] is [JNull] while it is [None]); [posts] is every call of
    [requests.post] made so far, the latest first. *)
Record world : Type :=
  { config : Config; token : json; posts : list request }.

Definition with_token (v : json) (w : world) : world :=
  {| config := config w; token := v; posts := posts w |}.

Definition with_post (r : request) (w : world) : world :=
  {| config := config w; token := token w; posts := r :: posts w |}.

(** A method call: it runs in a world and ends in an outcome and a world,
    or has no result when the recursion budget of the model is used up. *)
Definition M (A : Type) : Type := world -> option (outcome A * world).

Definition ret {A : Type} (a : A) : M A := fun w => Some (Return a, w).

Definition raise {A : Type} (e : exn) : M A := fun w => Some (Raise e, w).

Definition bind {A B : Type} (c : M A) (k : A -> M B) : M B :=
  fun w =>
    match c w with
    | None => None
    | Some (Raise e, w') => Some (Raise e, w')
    | Some (Return a, w') => k a w'
    end.

Notation "x <~ c ;; k" := (bind c (fun x => k))
  (at level 61, c at next level, right associativity).

(** A pure computation inside a method. *)
Definition lift {A : Type} (o : outcome A) : M A := fun w => Some (o, w).

Definition get_token : M json := fun w => Some (Return (token w), w).

Definition set_token (v : json) : M unit := fun w => Some (Return tt, with_token v w).

Definition get_config : M Config := fun w => Some (Return (config w), w).

(** [try: c / except InvalidToken: handler]; inside the handler a bare
    [raise] re-raises the exception it is given. *)
Definition try_except_InvalidToken {A : Type} (c : M A) (handler : exn -> M A) : M A :=
  fun w =>
    match c w with
    | Some (Raise (InvalidToken code), w') => handler (InvalidToken code) w'
    | r => r
    end.

Section Gateway.

(** [json.loads]: the decoded value, or [None] where it raises
    [JSONDecodeError]. *)
Variable loads : string -> option json.

(** The network and the gateway behind [requests.post]: the result of the
    latest call, given all calls made so far (the latest is first). *)
Variable gateway : list request -> post_result.

(** The [print(url, body, headers)] of the method writes to standard output
    the very url, body and headers of the call of [requests.post] that
    follows it; the world has no output of its own, and [posts] lists what
    was printed as well as what was sent. *)
Definition _do_http_request_impl (url : string) (body : json)
    (headers : list (string * string)) : M json :=
  fun w =>
    let w' := with_post {| url := url; data := body; headers := headers |} w in
    match gateway (posts w') with
    | Throws e => Some (Raise e, w')
    | Reply text =>
        match loads (fix_response text) with
        | Some v => Some (Return v, w')
        | None => Some (Raise JSONDecodeError, w')
        end
    end.

Definition _do_http_request (url : string) (body : json)
    (headers : list (string * string)) : M json :=
  fun w =>
    match _do_http_request_impl url body headers w with
    | Some (Raise AsyncioTimeoutError, w') =>
        Some (Raise (PyVLXException "Request timeout when talking to VELUX API" None), w')
    | Some (Raise AiohttpClientError, w') =>
        Some (Raise (PyVLXException "HTTP error when talking to VELUX API" None), w')
    | Some (Raise OSError, w') =>
        Some (Raise (PyVLXException "OS error when talking to VELUX API" None), w')
    | r => r
    end.

Definition _api_call_impl (verb action : string) (params : json)
    (add_authorization_token : bool) : M json :=
  cfg <~ get_config ;;
  let url := create_api_url (host cfg) verb in
  let body := create_body action params in
  token <~ get_token ;;
  headers <~ lift (create_headers add_authorization_token token) ;;
  _do_http_request url body headers.

(** The body of [refresh_token], over the [api_call] it calls. *)
Definition refresh_token_with
    (api_call : string -> string -> json -> bool -> bool -> M json) : M unit :=
  cfg <~ get_config ;;
  json_response <~
    api_call "auth" "login" (JDict [("password", JStr (password cfg))]) false false ;;
  present <~ lift (py_in "token" json_response) ;;
  if negb present then
    raise (PyVLXException "no element token found in response: {0}" (Some json_response))
  else
    v <~ lift (py_getitem json_response "token") ;;
    set_token v.

(** [api_call] calls itself, directly and through [refresh_token]; [fuel]
    bounds the depth of these calls. *)
Fixpoint api_call (fuel : nat) (verb action : string) (params : json)
    (add_authorization_token retry : bool) {struct fuel} : M json :=
  match fuel with
  | O => fun _ => None
  | S fuel' =>
      let refresh_token := refresh_token_with (api_call fuel') in
      token <~ get_token ;;
      _ <~ (if add_authorization_token && negb (truthy token)
            then refresh_token else ret tt) ;;
      try_except_InvalidToken
        (_api_call_impl verb action params add_authorization_token)
        (fun invalid_token =>
           if negb retry && add_authorization_token then
             _ <~ refresh_token ;;
             api_call fuel' verb action params add_authorization_token true
           else raise invalid_token)
  end.

Definition refresh_token (fuel : nat) : M unit :=
  refresh_token_with (api_call fuel).

Definition disconnect (fuel : nat) : M unit :=
  _ <~ api_call fuel "auth" "logout" (JDict []) true false ;;
  set_token JNull.

End Gateway.

(** ** A decoder for concrete response texts *)

(** [json.loads] belongs to Python's library and is a parameter of the
    methods above.  [json_loads] below is a decoder to run them on concrete
    texts: objects, arrays, strings with the one-character escapes, numbers,
    [true], [false], [null], [NaN] and the infinities; it has no [\u]
    escapes. *)
Module Decoder.

Definition is_ws (c : ascii) : bool :=
  match c with
  | " "%char | "009"%char | "010"%char | "013"%char => true
  | _ => false
  end.

Fixpoint skip_ws (s : string) : string :=
  match s with
  | String c rest => if is_ws c then skip_ws rest else s
  | EmptyString => s
  end.

Definition digit (c : ascii) : option Z :=
  let code := Z.of_nat (nat_of_ascii c) in
  if (48 <=? code) && (code <=? 57) then Some (code - 48) else None.

(** Reads a run of digits: its value after [acc], its length, the rest. *)
Fixpoint digits (s : string) (acc : Z) (n : Z) : Z * Z * string :=
  match s with
  | String c rest =>
      match digit c with
      | Some d => digits rest (10 * acc + d) (n + 1)
      | None => (acc, n, s)
      end
  | EmptyString => (acc, n, s)
  end.

(** The integer part: [0], or a digit from 1 to 9 and more digits. *)
Definition int_part (s : string) : option (Z * string) :=
  match s with
  | String "0" rest => Some (0, rest)
  | _ => let '(v, n, rest) := digits s 0 0 in if 0 <? n then Some (v, rest) else None
  end.

Definition frac_part (s : string) : option (Z * Z * string) :=
  match s with
  | String "." rest =>
      let '(v, n, rest') := digits rest 0 0 in
      if 0 <? n then Some (v, n, rest') else None
  | _ => None
  end.

Definition exp_part (s : string) : option (Z * string) :=
  let signed sign rest :=
    let '(v, n, rest') := digits rest 0 0 in
    if 0 <? n then Some (sign * v, rest') else None in
  match s with
  | String "e" (String "+" rest) | String "E" (String "+" rest) => signed 1 rest
  | String "e" (String "-" rest) | String "E" (String "-" rest) => signed (-1) rest
  | String "e" rest | String "E" rest => signed 1 rest
  | _ => None
  end.

(** A number without its sign; a fraction or an exponent makes it a float. *)
Definition number (sign : Z) (s : string) : option (json * string) :=
  match int_part s with
  | None => None
  | Some (i, rest) =>
      match frac_part rest with
      | Some (f, n, rest') =>
          match exp_part rest' with
          | Some (e, rest'') =>
              Some (JFloat (FDec (sign * (i * 10 ^ n + f)) (e - n)), rest'')
          | None => Some (JFloat (FDec (sign * (i * 10 ^ n + f)) (- n)), rest')
          end
      | None =>
          match exp_part rest with
          | Some (e, rest') => Some (JFloat (FDec (sign * i) e), rest')
          | None => Some (JInt (sign * i), rest)
          end
      end
  end.

(** The characters of a string after its opening quote, up to the closing
    quote. *)
Fixpoint chars (s : string) : option (string * string) :=
  let cons c r :=
    match r with
    | Some (body, rest) => Some (String c body, rest)
    | None => None
    end in
  match s with
  | EmptyString => None
  | String "034" rest => Some (EmptyString, rest)
  | String "\" (String e rest) =>
      match e with
      | "034"%char => cons "034"%char (chars rest)
      | "\"%char => cons "\"%char (chars rest)
      | "/"%char => cons "/"%char (chars rest)
      | "b"%char => cons "008"%char (chars rest)
      | "f"%char => cons "012"%char (chars rest)
      | "n"%char => cons "010"%char (chars rest)
      | "r"%char => cons "013"%char (chars rest)
      | "t"%char => cons "009"%char (chars rest)
      | _ => None
      end
  | String c rest =>
      if (nat_of_ascii c <? 32)%nat then None else cons c (chars rest)
  end.

(** [d[key] = v] on the items of a dict. *)
Fixpoint dict_set (key : string) (v : json) (d : list (string * json))
  : list (string * json) :=
  match d with
  | [] => [(key, v)]
  | (k, x) :: rest =>
      if (k =? key)%string then (k, v) :: rest else (k, x) :: dict_set key v rest
  end.

(** The elements of an array after the first [skip_ws], up to its "]". *)
Fixpoint elements (value : string -> option (json * string)) (fuel : nat)
    (s : string) (acc : list json) : option (list json * string) :=
  match fuel with
  | O => None
  | S fuel' =>
      match value s with
      | None => None
      | Some (v, rest) =>
          match skip_ws rest with
          | String "," rest' => elements value fuel' (skip_ws rest') (acc ++ [v])
          | String "]" rest' => Some ((acc ++ [v])%list, rest')
          | _ => None
          end
      end
  end.

(** The members of an object after the first [skip_ws], up to its "}". *)
Fixpoint members (value : string -> option (json * string)) (fuel : nat)
    (s : string) (acc : list (string * json)) : option (list (string * json) * string) :=
  match fuel with
  | O => None
  | S fuel' =>
      match s with
      | String "034" rest =>
          match chars rest with
          | None => None
          | Some (key, rest1) =>
              match skip_ws rest1 with
              | String ":" rest2 =>
                  match value (skip_ws rest2) with
                  | None => None
                  | Some (v, rest3) =>
                      match skip_ws rest3 with
                      | String "," rest4 =>
                          members value fuel' (skip_ws rest4) (dict_set key v acc)
                      | String "}" rest4 => Some (dict_set key v acc, rest4)
                      | _ => None
                      end
                  end
              | _ => None
              end
          end
      | _ => None
      end
  end.

Definition literal (name : string) (v : json) (s : string) : option (json * string) :=
  if prefix name s
  then Some (v, slice_from (String.length name) s)
  else None.

Fixpoint value (fuel : nat) (s : string) : option (json * string) :=
  match fuel with
  | O => None
  | S fuel' =>
      match s with
      | String "{" rest =>
          match skip_ws rest with
          | String "}" rest' => Some (JDict [], rest')
          | rest' =>
              match members (value fuel') fuel' rest' [] with
              | Some (d, rest'') => Some (JDict d, rest'')
              | None => None
              end
          end
      | String "[" rest =>
          match skip_ws rest with
          | String "]" rest' => Some (JList [], rest')
          | rest' =>
              match elements (value fuel') fuel' rest' [] with
              | Some (l, rest'') => Some (JList l, rest'')
              | None => None
              end
          end
      | String "034" rest =>
          match chars rest with
          | Some (body, rest') => Some (JStr body, rest')
          | None => None
          end
      | String "n" _ => literal "null" JNull s
      | String "t" _ => literal "true" (JBool true) s
      | String "f" _ => literal "false" (JBool false) s
      | String "N" _ => literal "NaN" (JFloat FNaN) s
      | String "I" _ => literal "Infinity" (JFloat (FInf false)) s
      | String "-" (String "I" _) => literal "-Infinity" (JFloat (FInf true)) s
      | String "-" rest => number (-1) rest
      | _ => number 1 s
      end
  end.

Definition json_loads (s : string) : option json :=
  match value (S (String.length s)) (skip_ws s) with
  | Some (v, rest) =>
      match skip_ws rest with
      | EmptyString => Some v
      | _ => None
      end
  | None => None
  end.

End Decoder.

(** Response texts are written with a backquote where the text has a double
    quote. *)
Fixpoint text (s : string) : string :=
  match s with
  | String c rest => String (if Ascii.eqb c "`" then "034"%char else c) (text rest)
  | EmptyString => EmptyString
  end.



(** ** Notions the properties are stated with *)

(** The [errors] item is a non-empty array of JSON integers. *)
Definition nonempty_int_array (errors : option json) : bool :=
  match errors with
  | Some (JList (x :: rest)) =>
      forallb (fun v => match v with JInt _ => true | _ => false end) (x :: rest)
  | _ => false
  end.

(** The exceptions of the library's own classes ([InvalidToken] derives from
    [PyVLXException]). *)
Definition is_pyvlx_exception (e : exn) : bool :=
  match e with
  | PyVLXException _ _ | InvalidToken _ => true
  | _ => false
  end.

(** [None] or a [str]. *)
Definition none_or_str (v : json) : bool :=
  match v with
  | JNull | JStr _ => true
  | _ => false
  end.

(** The exceptions of ['Bearer ' + token]. *)
Definition is_concat_error (e : exn) : bool :=
  match e with
  | TypeError (ConcatStr _) => true
  | _ => false
  end.

(** The exceptions that [_do_http_request] turns into a [PyVLXException]. *)
Definition transport_error (e : exn) : bool :=
  match e with
  | AsyncioTimeoutError | AiohttpClientError | OSError => true
  | _ => false
  end.

(** The request of [refresh_token]. *)
Definition login_request (cfg : Config) : request :=
  {| url := create_api_url (host cfg) "auth";
     data := create_body "login" (JDict [("password", JStr (password cfg))]);
     headers := [("Content-Type", "application/json")] |}.

(** The request of a call that carries the bearer token [t]. *)
Definition bearer_request (cfg : Config) (verb action : string) (params : json)
    (t : string) : request :=
  {| url := create_api_url (host cfg) verb;
     data := create_body action params;
     headers := [("Content-Type", "application/json");
                 ("Authorization", ("Bearer " ++ t)%string)] |}.

(** ** Gateways for concrete runs *)

Definition has_authorization (r : request) : bool :=
  existsb (fun h => (fst h =? "Authorization")%string) (headers r).

(** The calls that carry a bearer token, and those that do not (the login
    exchanges of [refresh_token]). *)
Definition authorized (l : list request) : list request := filter has_authorization l.

Definition unauthorized (l : list request) : list request :=
  filter (fun r => negb (has_authorization r)) l.

(** A gateway that answers every call without a bearer token with [login]
    and the n-th call with a bearer token with the n-th entry of [script]
    ([default] once the script is over). *)
Definition scripted (login : post_result) (script : list post_result)
    (default : post_result) (posts : list request) : post_result :=
  match posts with
  | [] => default
  | r :: _ =>
      if has_authorization r
      then nth (Nat.pred (List.length (authorized posts))) script default
      else login
  end.

(** The exchanges of the call itself: with authorization they are the ones
    that carry the bearer token (the logins of [refresh_token] carry none),
    without authorization there is no login and every exchange counts. *)
Definition attempts (add_authorization_token : bool) (new : list request) : list request :=
  if add_authorization_token then authorized new else new.

Definition klf200 : Config := {| host := "klf200"; password := "velux123" |}.

(** An interface that holds the token [t] and has sent nothing yet. *)
Definition holding (t : json) : world := {| config := klf200; token := t; posts := [] |}.

(** The session has expired: the first call with a bearer token is answered
    with error 403, the next one succeeds; logins get a fresh token. *)
Definition gateway_expired : list request -> post_result :=
  scripted (Reply (text "{`token`:`fresh`}"))
    [Reply (text "{`errors`:[403]}"); Reply (text "{`result`:true}")]
    (Reply (text "{`result`:true}")).

(** The transport raises [InvalidToken(403)] on every call with a bearer
    token; logins get a fresh token. *)
Definition gateway_rejecting : list request -> post_result :=
  scripted (Reply (text "{`token`:`fresh`}")) [] (Throws (InvalidToken (JInt 403))).

(** No connection: every call ends in an [OSError]. *)
Definition gateway_down : list request -> post_result := fun _ => Throws OSError.

(** Every request is answered with error 403. *)
Definition gateway_forbidden : list request -> post_result :=
  fun _ => Reply (text "{`errors`:[403]}").

(** Every response is the text [not json]. *)
Definition gateway_garbled : list request -> post_result := fun _ => Reply "not json".

(** Logins are answered with a null token. *)
Definition gateway_null_token : list request -> post_result :=
  scripted (Reply (text "{`token`:null}")) [] (Reply (text "{`result`:true}")).

(** Logins are answered without a token, everything else succeeds. *)
Definition gateway_no_token : list request -> post_result :=
  scripted (Reply (text "{`result`:true}")) [] (Reply (text "{`result`:true}")).

(** What [_do_http_request] makes of the result of [requests.post] and of
    decoding the response. *)
Definition answer (loads : string -> option json) (p : post_result) : outcome json :=
  match p with
  | Reply text =>
      match loads (fix_response text) with
      | Some v => Return v
      | None => Raise JSONDecodeError
      end
  | Throws AsyncioTimeoutError =>
      Raise (PyVLXException "Request timeout when talking to VELUX API" None)
  | Throws AiohttpClientError =>
      Raise (PyVLXException "HTTP error when talking to VELUX API" None)
  | Throws OSError => Raise (PyVLXException "OS error when talking to VELUX API" None)
  | Throws e => Raise e
  end.

(** What [refresh_token] makes of the outcome of its login call. *)
Definition install_token (login : outcome json) (w : world) : outcome unit * world :=
  match login with
  | Raise e => (Raise e, w)
  | Return json_response =>
      match py_in "token" json_response with
      | Raise e => (Raise e, w)
      | Return false =>
          (Raise (PyVLXException "no element token found in response: {0}"
                    (Some json_response)), w)
      | Return true =>
          match py_getitem json_response "token" with
          | Raise e => (Raise e, w)
          | Return v => (Return tt, with_token v w)
          end
      end
  end.

Section Unrolled.

Variable loads : string -> option json.
Variable gateway : list request -> post_result.

(** One exchange with the gateway. *)
Definition exchange (r : request) : M json :=
  fun w => Some (answer loads (gateway (r :: posts w)), with_post r w).

(** [refresh_token] as one login exchange. *)
Definition login : M unit :=
  fun w =>
    match exchange (login_request (config w)) w with
    | Some (r, w') => Some (install_token r w')
    | None => None
    end.

(** The first statement of [api_call]. *)
Definition ensure_token (add_authorization_token : bool) : M unit :=
  fun w =>
    if add_authorization_token && negb (truthy (token w)) then login w
    else Some (Return tt, w).

(** [api_call] with [retry=True], without its recursion. *)
Definition second_call (verb action : string) (params : json) : M json :=
  _ <~ ensure_token true ;;
  _api_call_impl loads gateway verb action params true.

(** [api_call] with its recursive call replaced by [second_call]. *)
Definition api_call_unrolled (verb action : string) (params : json)
    (add_authorization_token retry : bool) : M json :=
  _ <~ ensure_token add_authorization_token ;;
  try_except_InvalidToken
    (_api_call_impl loads gateway verb action params add_authorization_token)
    (fun invalid_token =>
       if negb retry && add_authorization_token then
         _ <~ login ;; second_call verb action params
       else raise invalid_token).

End Unrolled.

(** ** The constructor and the facade *)

(** [Interface.__init__]: the configuration is kept and no token is held;
    nothing has been sent. *)
Definition __init__ (config : Config) : world :=
  {| config := config; token := JNull; posts := [] |}.

(** The request of a call without authorization. *)
Definition plain_request (cfg : Config) (verb action : string) (params : json) : request :=
  {| url := create_api_url (host cfg) verb;
     data := create_body action params;
     headers := [("Content-Type", "application/json")] |}.

(** [PyVLX.connect] and [PyVLX.disconnect] of [pyvlx/pyvlx.py], on the
    interface the facade owns. *)
Module PyVLX.

Definition connect (loads : string -> option json) (gateway : list request -> post_result)
    (fuel : nat) : M unit :=
  refresh_token loads gateway fuel.

Definition disconnect (loads : string -> option json)
    (gateway : list request -> post_result) (fuel : nat) : M unit :=
  disconnect loads gateway fuel.

End PyVLX.

(** * Properties *)

Example json_loads_errors :
  Decoder.json_loads (text "{`errors`:[403]}") = Some (JDict [("errors", JList [JInt 403])]).
Proof. vm_compute. reflexivity. Qed.

(** ** [fix_response] *)

Lemma find_absent (c : ascii) (s : string) :
  ~ In c (list_ascii_of_string s) -> find c s = -1.
Proof.
  induction s as [|a s IH]; simpl; intros Hnot; [reflexivity|].
  destruct (Ascii.eqb_spec a c) as [->|_].
  - exfalso. apply Hnot. now left.
  - rewrite IH by (intros Hin; apply Hnot; now right). reflexivity.
Qed.

Lemma find_first (c : ascii) (pre post : string) :
  ~ In c (list_ascii_of_string pre) ->
  find c (pre ++ String c post) = Z.of_nat (String.length pre).
Proof.
  induction pre as [|a pre IH]; intros Hnot.
  - simpl. now rewrite Ascii.eqb_refl.
  - cbn [append find String.length].
    destruct (Ascii.eqb_spec a c) as [->|_].
    + exfalso. apply Hnot. now left.
    + rewrite IH by (intros Hin; apply Hnot; now right).
      destruct (Z.ltb_spec (Z.of_nat (String.length pre)) 0); lia.
Qed.

Lemma slice_from_append (pre s : string) :
  slice_from (String.length pre) (pre ++ s) = s.
Proof. induction pre as [|a pre IH]; simpl; [now destruct s | exact IH]. Qed.

Lemma fix_response_strips (pre post : string) :
  ~ In "{"%char (list_ascii_of_string pre) ->
  fix_response (pre ++ String "{" post) = String "{" post.
Proof.
  intros Hnot. unfold fix_response. rewrite (find_first _ _ _ Hnot).
  destruct (Z.ltb_spec 0 (Z.of_nat (String.length pre))) as [Hpos|Hzero].
  - rewrite Nat2Z.id. apply slice_from_append.
  - destruct pre; [reflexivity | simpl in Hzero; lia].
Qed.

Lemma fix_response_no_brace (s : string) :
  ~ In "{"%char (list_ascii_of_string s) -> fix_response s = s.
Proof. intros Hnot. unfold fix_response. now rewrite (find_absent _ _ Hnot). Qed.

(** C9. [fix_response] drops everything before the first "{" of the response
    and returns the rest; a response that starts with "{" and a response
    without any "{" are returned as they are.  So the prefix [)]}',] is
    stripped from [)]}',{"result":true}], while [{"result":true}] and
    [not json] are unchanged. *)
Theorem fix_response_discards_prefix :
  (forall pre post : string,
      ~ In "{"%char (list_ascii_of_string pre) ->
      fix_response (pre ++ String "{" post) = String "{" post) /\
  (forall post : string, fix_response (String "{" post) = String "{" post) /\
  (forall s : string, ~ In "{"%char (list_ascii_of_string s) -> fix_response s = s) /\
  fix_response (text ")]}',{`result`:true}") = text "{`result`:true}" /\
  fix_response (text "{`result`:true}") = text "{`result`:true}" /\
  fix_response "not json" = "not json".
Proof.
  split; [exact fix_response_strips|].
  split; [intros post; apply (fix_response_strips EmptyString post); simpl; tauto|].
  split; [exact fix_response_no_brace|].
  repeat split; reflexivity.
Qed.

Lemma fix_response_discards_prefix_witness :
  fix_response (")]}'," ++ String "{" "}") = String "{" "}" /\
  fix_response "not json" = "not json".
Proof.
  split.
  - apply (proj1 fix_response_discards_prefix). simpl.
    intros H. repeat (destruct H as [H|H]; [discriminate H|]). exact H.
  - apply (proj1 (proj2 (proj2 fix_response_discards_prefix))). simpl.
    intros H. repeat (destruct H as [H|H]; [discriminate H|]). exact H.
Defined.

(** ** [evaluate_errors] and [evaluate_response] *)

(** [evaluate_errors] on a dict, by the shape of its [errors] item. *)
Lemma evaluate_errors_dict (d : list (string * json)) :
  evaluate_errors (JDict d) =
  match dict_get "errors" d with
  | Some (JList (first_error :: _)) =>
      if isinstance_int first_error then
        if in_int_list first_error auth_failure_codes
        then Raise (InvalidToken first_error)
        else Raise (PyVLXException "Unknown error code {0}" (Some first_error))
      else could_not_evaluate (JDict d)
  | _ => could_not_evaluate (JDict d)
  end.
Proof.
  unfold evaluate_errors, could_not_evaluate, py_in, py_getitem, bind_outcome.
  destruct (dict_get "errors" d) as [errors|]; [|reflexivity].
  destruct errors as [| | | | |l|]; try reflexivity.
  destruct l as [|first_error rest]; [reflexivity|].
  cbn [negb isinstance_list truthy].
  destruct (isinstance_int first_error); reflexivity.
Qed.

Lemma has_truthy_dict (key : string) (d : list (string * json)) :
  has_truthy key (JDict d) =
  Return (match dict_get key d with Some v => truthy v | None => false end).
Proof.
  unfold has_truthy, py_in, py_getitem, bind_outcome.
  destruct (dict_get key d); reflexivity.
Qed.

(** [evaluate_response] on a dict, by its [errors] and [result] items. *)
Lemma evaluate_response_dict (d : list (string * json)) :
  evaluate_response (JDict d) =
  if match dict_get "errors" d with Some v => truthy v | None => false end
  then evaluate_errors (JDict d)
  else
    match dict_get "result" d with
    | None =>
        Raise (PyVLXException "no element result  found in response: {0}" (Some (JDict d)))
    | Some result =>
        if truthy result then Return tt
        else Raise (PyVLXException "Request failed {0}" (Some (JDict d)))
    end.
Proof.
  unfold evaluate_response. rewrite has_truthy_dict.
  cbn [bind_outcome].
  destruct (match dict_get "errors" d with Some v => truthy v | None => false end);
    [reflexivity|].
  unfold py_in, py_getitem, bind_outcome.
  destruct (dict_get "result" d) as [result|]; [|reflexivity].
  cbn [negb]. destruct (truthy result); reflexivity.
Qed.

(** C5, as stated, fails: with [errors = [403, "x"]] the array is not an
    array of integers, yet [evaluate_errors] raises [InvalidToken(403)]. *)
Lemma evaluate_errors_ignores_later_elements :
  ~ (forall d : list (string * json),
        nonempty_int_array (dict_get "errors" d) = false ->
        evaluate_errors (JDict d) = could_not_evaluate (JDict d)).
Proof.
  intros H.
  specialize (H [("errors", JList [JInt 403; JStr "x"])] eq_refl).
  vm_compute in H. discriminate H.
Qed.

(** C5, amended. On an envelope, [evaluate_errors] raises
    [PyVLXException('Could not evaluate errors ...')] exactly when [errors] is
    missing, is not a list, is empty, or has a first element that is not an
    [int] for [isinstance] (a JSON integer or boolean); the elements after
    the first are not looked at. *)
Theorem evaluate_errors_could_not_evaluate (d : list (string * json)) :
  evaluate_errors (JDict d) = could_not_evaluate (JDict d) <->
  match dict_get "errors" d with
  | Some (JList (first_error :: _)) => isinstance_int first_error = false
  | _ => True
  end.
Proof.
  rewrite evaluate_errors_dict.
  destruct (dict_get "errors" d) as [errors|]; [|tauto].
  destruct errors as [| | | | |l|]; try tauto.
  destruct l as [|first_error rest]; [tauto|].
  destruct (isinstance_int first_error).
  - split; [|discriminate].
    destruct (in_int_list first_error auth_failure_codes);
      unfold could_not_evaluate; intros H; discriminate H.
  - tauto.
Qed.

Lemma evaluate_errors_could_not_evaluate_witness :
  evaluate_errors (JDict [("errors", JList [JStr "403"; JInt 403])]) =
  could_not_evaluate (JDict [("errors", JList [JStr "403"; JInt 403])]).
Proof. apply (proj2 (evaluate_errors_could_not_evaluate _)). reflexivity. Defined.

Lemma in_auth_failure_codes (z : Z) :
  in_int_list (JInt z) auth_failure_codes = true <-> In z [402; 403; 405; 406].
Proof.
  unfold in_int_list, auth_failure_codes. cbn [int_value].
  rewrite existsb_exists. split.
  - intros [x [Hin Heq]]. apply Z.eqb_eq in Heq. now subst x.
  - intros Hin. exists z. split; [exact Hin | apply Z.eqb_refl].
Qed.

(** C6. When [errors] is a non-empty list whose first element is the integer
    [z], only [z] decides: for [z] among 402, 403, 405 and 406 the envelope is
    answered with [InvalidToken(z)], for any other [z] with
    [PyVLXException('Unknown error code z')], whatever follows [z] in the list;
    [evaluate_response] gives the same answer. *)
Theorem evaluate_errors_first_code (d : list (string * json)) (z : Z) (rest : list json) :
  dict_get "errors" d = Some (JList (JInt z :: rest)) ->
  (In z [402; 403; 405; 406] ->
   evaluate_errors (JDict d) = Raise (InvalidToken (JInt z)) /\
   evaluate_response (JDict d) = Raise (InvalidToken (JInt z))) /\
  (~ In z [402; 403; 405; 406] ->
   evaluate_errors (JDict d) =
     Raise (PyVLXException "Unknown error code {0}" (Some (JInt z))) /\
   evaluate_response (JDict d) =
     Raise (PyVLXException "Unknown error code {0}" (Some (JInt z)))).
Proof.
  intros Herrors.
  assert (Hresp : evaluate_response (JDict d) = evaluate_errors (JDict d)).
  { rewrite evaluate_response_dict, Herrors. reflexivity. }
  rewrite Hresp, evaluate_errors_dict, Herrors. cbn [isinstance_int].
  split; intros Hz.
  - apply in_auth_failure_codes in Hz. rewrite Hz. now split.
  - destruct (in_int_list (JInt z) auth_failure_codes) eqn:Hin.
    + apply in_auth_failure_codes in Hin. contradiction.
    + now split.
Qed.

Lemma evaluate_errors_first_code_witness :
  evaluate_errors (JDict [("errors", JList [JInt 405; JInt 7])]) =
    Raise (InvalidToken (JInt 405)) /\
  evaluate_errors (JDict [("errors", JList [JInt 999; JInt 403])]) =
    Raise (PyVLXException "Unknown error code {0}" (Some (JInt 999))).
Proof.
  split.
  - apply (evaluate_errors_first_code [("errors", JList [JInt 405; JInt 7])] 405 [JInt 7]).
    + reflexivity.
    + simpl. tauto.
  - apply (evaluate_errors_first_code [("errors", JList [JInt 999; JInt 403])] 999 [JInt 403]).
    + reflexivity.
    + simpl. lia.
Defined.

(** C7. On an envelope with [result] true and no [errors],
    [evaluate_response] returns; on one with neither [result] nor [errors] it
    raises [PyVLXException('no element result  found ...')]; on one whose
    [result] is present and falsy, with [errors] missing or empty, it raises
    [PyVLXException('Request failed ...')] with the whole envelope. *)
Theorem evaluate_response_result (d : list (string * json)) :
  (dict_get "errors" d = None -> dict_get "result" d = Some (JBool true) ->
   evaluate_response (JDict d) = Return tt) /\
  (dict_get "errors" d = None -> dict_get "result" d = None ->
   evaluate_response (JDict d) =
     Raise (PyVLXException "no element result  found in response: {0}" (Some (JDict d)))) /\
  (forall result : json,
      dict_get "errors" d = None \/ dict_get "errors" d = Some (JList []) ->
      dict_get "result" d = Some result -> truthy result = false ->
      evaluate_response (JDict d) =
        Raise (PyVLXException "Request failed {0}" (Some (JDict d)))).
Proof.
  rewrite evaluate_response_dict.
  split; [|split].
  - intros -> ->. reflexivity.
  - intros -> ->. reflexivity.
  - intros result [-> | ->] -> Hfalsy; cbn [truthy]; rewrite Hfalsy; reflexivity.
Qed.

Lemma evaluate_response_result_witness :
  evaluate_response (JDict [("result", JBool true)]) = Return tt /\
  evaluate_response (JDict [("data", JInt 1)]) =
    Raise (PyVLXException "no element result  found in response: {0}"
             (Some (JDict [("data", JInt 1)]))) /\
  evaluate_response (JDict [("result", JBool false); ("errors", JList [])]) =
    Raise (PyVLXException "Request failed {0}"
             (Some (JDict [("result", JBool false); ("errors", JList [])]))).
Proof.
  split; [|split].
  - apply (proj1 (evaluate_response_result _)); reflexivity.
  - apply (proj1 (proj2 (evaluate_response_result _))); reflexivity.
  - apply (proj2 (proj2 (evaluate_response_result _)) (JBool false));
      [right; reflexivity | reflexivity | reflexivity].
Defined.

(** ** The calls of [api_call], unrolled *)

Section Calls.

Variable loads : string -> option json.
Variable gateway : list request -> post_result.

Lemma _do_http_request_exchange (u : string) (body : json) (h : list (string * string))
    (w : world) :
  _do_http_request loads gateway u body h w =
  exchange loads gateway {| url := u; data := body; headers := h |} w.
Proof.
  unfold _do_http_request, _do_http_request_impl, exchange. cbn [with_post posts].
  destruct (gateway _) as [t|e]; cbn [answer].
  - destruct (loads (fix_response t)); reflexivity.
  - destruct e; reflexivity.
Qed.

Lemma _api_call_impl_exchange (verb action : string) (params : json) (auth : bool)
    (w : world) :
  _api_call_impl loads gateway verb action params auth w =
  match create_headers auth (token w) with
  | Raise e => Some (Raise e, w)
  | Return h =>
      exchange loads gateway
        {| url := create_api_url (host (config w)) verb;
           data := create_body action params; headers := h |} w
  end.
Proof.
  unfold _api_call_impl, bind, get_config, get_token, lift.
  destruct (create_headers auth (token w)); [|reflexivity].
  apply _do_http_request_exchange.
Qed.

(** One level of [api_call], with its binds written out. *)
Lemma api_call_step (fuel : nat) (verb action : string) (params : json)
    (auth retry : bool) (w : world) :
  api_call loads gateway (S fuel) verb action params auth retry w =
  match (if auth && negb (truthy (token w))
         then refresh_token loads gateway fuel w else Some (Return tt, w)) with
  | None => None
  | Some (Raise e, w1) => Some (Raise e, w1)
  | Some (Return _, w1) =>
      match _api_call_impl loads gateway verb action params auth w1 with
      | Some (Raise (InvalidToken code), w2) =>
          if negb retry && auth then
            match refresh_token loads gateway fuel w2 with
            | None => None
            | Some (Raise e, w3) => Some (Raise e, w3)
            | Some (Return _, w3) =>
                api_call loads gateway fuel verb action params auth true w3
            end
          else Some (Raise (InvalidToken code), w2)
      | r => r
      end
  end.
Proof.
  change (api_call loads gateway (S fuel) verb action params auth retry w)
    with ((token <~ get_token ;;
           _ <~ (if auth && negb (truthy token)
                 then refresh_token loads gateway fuel else ret tt) ;;
           try_except_InvalidToken
             (_api_call_impl loads gateway verb action params auth)
             (fun invalid_token =>
                if negb retry && auth then
                  _ <~ refresh_token loads gateway fuel ;;
                  api_call loads gateway fuel verb action params auth true
                else raise invalid_token)) w).
  unfold bind at 1. cbn [get_token]. unfold bind at 1.
  destruct (auth && negb (truthy (token w))).
  - destruct (refresh_token loads gateway fuel w) as [[[[]|e] w1]|]; try reflexivity.
    unfold try_except_InvalidToken.
    destruct (_api_call_impl loads gateway verb action params auth w1)
      as [[[v|e] w2]|]; try reflexivity.
    destruct e; try reflexivity.
    destruct (negb retry && auth); reflexivity.
  - unfold ret at 1. unfold try_except_InvalidToken.
    destruct (_api_call_impl loads gateway verb action params auth w)
      as [[[v|e] w2]|]; try reflexivity.
    destruct e; try reflexivity.
    destruct (negb retry && auth); reflexivity.
Qed.

(** Without authorization [api_call] is a single attempt: it neither logs in
    nor retries, and the handler re-raises. *)
Lemma api_call_without_authorization (fuel : nat) (verb action : string) (params : json)
    (retry : bool) (w : world) :
  api_call loads gateway (S fuel) verb action params false retry w =
  _api_call_impl loads gateway verb action params false w.
Proof.
  rewrite api_call_step. cbn [andb]. rewrite andb_false_r.
  destruct (_api_call_impl loads gateway verb action params false w) as [[[v|e] w']|];
    try reflexivity.
  destruct e; reflexivity.
Qed.

Lemma refresh_token_login (fuel : nat) (w : world) :
  refresh_token loads gateway (S fuel) w = login loads gateway w.
Proof.
  unfold refresh_token, refresh_token_with, login.
  unfold bind at 1. cbn [get_config]. unfold bind at 1.
  rewrite api_call_without_authorization, _api_call_impl_exchange.
  cbn [create_headers]. fold (login_request (config w)).
  unfold exchange, install_token.
  destruct (answer loads _) as [j|e]; [|reflexivity].
  unfold bind, lift, raise, set_token.
  destruct (py_in "token" j) as [[|]|e]; cbn [negb]; try reflexivity.
  destruct (py_getitem j "token"); reflexivity.
Qed.

Lemma api_call_second (fuel : nat) (verb action : string) (params : json) (w : world) :
  api_call loads gateway (S (S fuel)) verb action params true true w =
  second_call loads gateway verb action params w.
Proof.
  rewrite api_call_step, refresh_token_login.
  unfold second_call, ensure_token, bind.
  destruct (true && negb (truthy (token w))).
  - destruct (login loads gateway w) as [[[[]|e] w1]|]; try reflexivity.
    destruct (_api_call_impl loads gateway verb action params true w1)
      as [[[v|e] w2]|]; try reflexivity.
    destruct e; reflexivity.
  - destruct (_api_call_impl loads gateway verb action params true w)
      as [[[v|e] w2]|]; try reflexivity.
    destruct e; reflexivity.
Qed.

(** Three levels of calls are all [api_call] ever needs. *)
Lemma api_call_unroll (fuel : nat) (verb action : string) (params : json)
    (auth retry : bool) (w : world) :
  (3 <= fuel)%nat ->
  api_call loads gateway fuel verb action params auth retry w =
  api_call_unrolled loads gateway verb action params auth retry w.
Proof.
  intros Hfuel.
  destruct fuel as [|[|[|fuel]]]; try lia.
  rewrite api_call_step.
  unfold api_call_unrolled, ensure_token, bind at 1, try_except_InvalidToken.
  rewrite refresh_token_login.
  assert (Hretry : forall w2,
    match refresh_token loads gateway (S (S fuel)) w2 with
    | None => None
    | Some (Raise e, w3) => Some (Raise e, w3)
    | Some (Return _, w3) =>
        api_call loads gateway (S (S fuel)) verb action params true true w3
    end = (_ <~ login loads gateway ;; second_call loads gateway verb action params) w2).
  { intros w2. rewrite refresh_token_login. unfold bind at 1.
    destruct (login loads gateway w2) as [[[[]|e] w3]|]; try reflexivity.
    apply api_call_second. }
  destruct (match (if auth && negb (truthy (token w)) then login loads gateway w
                   else Some (Return tt, w)) with
            | Some (Return _, w1) => Some w1 | _ => None end) as [w1|] eqn:Hpre.
  - destruct (if auth && negb (truthy (token w)) then _ else _) as [[[[]|e] w1']|];
      try discriminate Hpre.
    injection Hpre as ->.
    destruct (_api_call_impl loads gateway verb action params auth w1)
      as [[[v|e] w2]|]; try reflexivity.
    destruct e; try reflexivity.
    destruct auth; [|now rewrite andb_false_r].
    destruct retry; [reflexivity|]. cbn [negb andb]. apply Hretry.
  - destruct (if auth && negb (truthy (token w)) then _ else _) as [[[[]|e] w1']|];
      try discriminate Hpre; reflexivity.
Qed.

End Calls.

(** ** The runs of [api_call] *)

Lemma create_headers_bearer (tok : json) (h : list (string * string)) :
  create_headers true tok = Return h ->
  exists t, tok = JStr t /\
            h = [("Content-Type", "application/json");
                 ("Authorization", ("Bearer " ++ t)%string)].
Proof.
  unfold create_headers. destruct tok; try discriminate.
  intros H. injection H as <-. eauto.
Qed.

Lemma create_headers_plain (tok : json) (h : list (string * string)) :
  create_headers false tok = Return h -> h = [("Content-Type", "application/json")].
Proof. unfold create_headers. intros H. now injection H as <-. Qed.

Lemma create_headers_raises (auth : bool) (tok : json) (e : exn) :
  create_headers auth tok = Raise e ->
  auth = true /\ e = TypeError (ConcatStr tok) /\ isinstance_str tok = false.
Proof.
  unfold create_headers. destruct auth; [|discriminate].
  destruct tok; try discriminate; intros H; injection H as <-; auto.
Qed.

Ltac world_simpl :=
  cbn [posts config token with_post with_token fst snd] in *.

(** One step in splitting a run of [api_call_unrolled] into its paths. *)
Ltac run_step :=
  match goal with
  | H : Some _ = Some _ |- _ => injection H as <- <-
  | H : None = Some _ |- _ => discriminate H
  | H : Some _ = None |- _ => discriminate H
  | H : Raise _ = Return _ |- _ => discriminate H
  | H : Return _ = Raise _ |- _ => discriminate H
  | H : context [_api_call_impl] |- _ =>
      rewrite _api_call_impl_exchange in H; unfold exchange in H
  | H : context [match ?x with _ => _ end] |- _ =>
      match type of x with
      | exn => destruct x
      | bool => destruct x eqn:?
      | outcome _ => destruct x eqn:?
      | unit => destruct x
      | _ => fail 1
      end
  | H : context [if ?x then _ else _] |- _ => destruct x eqn:?
  end; world_simpl.

(** Makes the headers of the requests of a path explicit. *)
Ltac headers_explicit :=
  repeat match goal with
    | H : create_headers true _ = Return _ |- _ =>
        apply create_headers_bearer in H; destruct H as (? & ? & ->)
    | H : create_headers false _ = Return _ |- _ =>
        apply create_headers_plain in H; subst
    | H : create_headers _ _ = Raise _ |- _ =>
        apply create_headers_raises in H; destruct H as (? & ? & ?)
    end;
  repeat match goal with
    | H : context [ {| url := create_api_url (host ?cfg) ?verb;
                       data := create_body ?action ?params;
                       headers := [?ct; ("Authorization", ("Bearer " ++ ?t)%string)] |} ] |- _ =>
        change {| url := create_api_url (host cfg) verb;
                  data := create_body action params;
                  headers := [ct; ("Authorization", ("Bearer " ++ t)%string)] |}
          with (bearer_request cfg verb action params t) in H
    | |- context [ {| url := create_api_url (host ?cfg) ?verb;
                      data := create_body ?action ?params;
                      headers := [?ct; ("Authorization", ("Bearer " ++ ?t)%string)] |} ] =>
        change {| url := create_api_url (host cfg) verb;
                  data := create_body action params;
                  headers := [ct; ("Authorization", ("Bearer " ++ t)%string)] |}
          with (bearer_request cfg verb action params t)
    end.

Ltac run_cases H :=
  unfold api_call_unrolled, second_call, ensure_token, bind, raise,
    try_except_InvalidToken, login in H;
  unfold exchange, install_token in H;
  cbn [andb negb] in H;
  world_simpl;
  repeat run_step;
  headers_explicit.

(** Computes which requests of an explicit list carry a bearer token. *)
Ltac count_exchanges :=
  cbn [attempts authorized unauthorized filter has_authorization headers login_request
       bearer_request url data existsb fst String.eqb Ascii.eqb Bool.eqb orb andb negb List.length app].

(** The requests put in front of [base] in the list [l]. *)
Ltac sent_since l base :=
  lazymatch l with
  | base => constr:(@nil request)
  | ?q :: ?l' => let new := sent_since l' base in constr:(q :: new)
  end.

(** Names the exchanges of a path: [posts w' = new ++ posts w]. *)
Ltac name_exchanges :=
  lazymatch goal with
  | |- exists new, ?l = (new ++ ?base)%list /\ _ =>
      let new := sent_since l base in exists new; split; [reflexivity|]
  end.

(** Uses what the gateway did at the latest exchange. *)
Ltac latest_exchange Hg :=
  lazymatch type of Hg with
  | ?g ?l = _ =>
      repeat match goal with
        | H : context [g l] |- _ =>
            tryif constr_eq H Hg then fail else (rewrite Hg in H; cbn [answer] in H)
        end;
      try (rewrite Hg; cbn [answer])
  end.

Lemma answer_return (loads : string -> option json) (p : post_result) (j : json) :
  answer loads p = Return j ->
  exists text, p = Reply text /\ loads (fix_response text) = Some j.
Proof.
  destruct p as [text|e]; cbn [answer].
  - destruct (loads (fix_response text)) as [v|] eqn:Hloads; [|discriminate].
    intros H. injection H as ->. exists text. split; [reflexivity | exact Hloads].
  - destruct e; discriminate.
Qed.

Lemma py_getitem_return (j : json) (key : string) (v : json) :
  py_getitem j key = Return v -> exists d, j = JDict d /\ dict_get key d = Some v.
Proof.
  destruct j as [| | | | | |d]; try discriminate. cbn [py_getitem].
  destruct (dict_get key d) as [x|] eqn:Hget; [|discriminate].
  intros H. injection H as ->. exists d. split; [reflexivity | exact Hget].
Qed.

(** Splits [new = later ++ sent] for an explicit list [new]. *)
Ltac split_sent H :=
  repeat match type of H with
    | (?later ++ _)%list = _ =>
        is_var later; destruct later; cbn [app] in H;
        [| first [discriminate H | injection H as -> H]]
    | ?sent = _ =>
        is_var sent; subst sent
    end.

Section Runs.

Variable loads : string -> option json.
Variable gateway : list request -> post_result.

Lemma api_call_unrolled_total verb action params auth retry w :
  exists r w', api_call_unrolled loads gateway verb action params auth retry w = Some (r, w').
Proof.
  destruct (api_call_unrolled loads gateway verb action params auth retry w)
    as [[r w']|] eqn:H; [eauto|].
  exfalso. destruct auth, retry; run_cases H.
Qed.

Lemma api_call_unrolled_run verb action params auth retry w r w' :
  api_call_unrolled loads gateway verb action params auth retry w = Some (r, w') ->
  exists new,
    posts w' = (new ++ posts w)%list /\
    (List.length new <= 5)%nat /\
    (List.length (attempts auth new) <= 2)%nat /\
    (retry = true \/ auth = false -> List.length (attempts auth new) <= 1)%nat /\
    Forall (fun q => url q = create_api_url (host (config w)) verb /\
                     data q = create_body action params) (attempts auth new) /\
    (forall c, new <> [] -> gateway (posts w') = Throws (InvalidToken c) ->
               r = Raise (InvalidToken c)).
Proof.
  intros H. destruct auth, retry; run_cases H; name_exchanges.
  all: split; [count_exchanges; lia|].
  all: split; [count_exchanges; lia|].
  all: split; [count_exchanges; intuition (try discriminate; lia)|].
  all: split; [count_exchanges; repeat (constructor; [split; reflexivity|]); constructor|].
  all: intros c Hnew Hg; try congruence; latest_exchange Hg; congruence.
Qed.

(** A response that cannot be decoded ends the call at once with
    [JSONDecodeError]. *)
Lemma api_call_unrolled_undecodable verb action params auth retry w r w' :
  api_call_unrolled loads gateway verb action params auth retry w = Some (r, w') ->
  forall later sent text,
    posts w' = (later ++ sent ++ posts w)%list -> sent <> [] ->
    gateway (sent ++ posts w) = Reply text -> loads (fix_response text) = None ->
    later = [] /\ r = Raise JSONDecodeError.
Proof.
  intros H later sent text Hsplit Hsent Hg Hloads.
  destruct auth, retry; run_cases H.
  all: rewrite app_assoc in Hsplit.
  all: match type of Hsplit with
       | ?l = _ => let new := sent_since l (posts w) in
                   change l with (new ++ posts w)%list in Hsplit
       end.
  all: apply app_inv_tail in Hsplit; symmetry in Hsplit.
  all: split_sent Hsplit; try congruence.
  all: cbn [app] in Hg; latest_exchange Hg; rewrite ?Hloads in *.
  all: first [congruence | split; [reflexivity | congruence]].
Qed.

Lemma answer_raise e p :
  answer loads p = Raise e ->
  is_concat_error e = true -> exists v, p = Throws (TypeError (ConcatStr v)).
Proof.
  destruct p as [text|e']; cbn [answer].
  - destruct (loads (fix_response text)); [discriminate|].
    intros H. injection H as <-. discriminate.
  - destruct e'; intros H; injection H as <-; try discriminate.
    destruct t; try discriminate. eauto.
Qed.

Lemma isinstance_str_none_or_str v : isinstance_str v = true -> none_or_str v = true.
Proof. now destruct v. Qed.

Lemma held_token_is_str v :
  none_or_str v = true -> negb (truthy v) = false -> isinstance_str v = true.
Proof. now destruct v. Qed.

Lemma py_in_raise key j e : py_in key j = Raise e -> is_concat_error e = false.
Proof. destruct j; cbn [py_in]; intros H; try discriminate H; now injection H as <-. Qed.

Lemma py_getitem_raise key j e : py_getitem j key = Raise e -> is_concat_error e = false.
Proof.
  destruct j; cbn [py_getitem]; intros H; try (now injection H as <-).
  destruct (dict_get key d); [discriminate|]. now injection H as <-.
Qed.

(** With string tokens from the gateway, the held token stays [None] or a
    [str] and ['Bearer ' + token] never raises. *)
Lemma api_call_unrolled_bearer verb action params retry w r w' :
  (forall sent q text d v,
      has_authorization q = false -> gateway (q :: sent) = Reply text ->
      loads (fix_response text) = Some (JDict d) -> dict_get "token" d = Some v ->
      isinstance_str v = true) ->
  (forall sent v, gateway sent <> Throws (TypeError (ConcatStr v))) ->
  none_or_str (token w) = true ->
  api_call_unrolled loads gateway verb action params true retry w = Some (r, w') ->
  none_or_str (token w') = true /\
  match r with Raise e => is_concat_error e = false | Return _ => True end.
Proof.
  intros Hlogin Hthrow Htoken H.
  assert (Hanswer : forall sent e, answer loads (gateway sent) = Raise e ->
                                   is_concat_error e = false).
  { intros sent e He. destruct (is_concat_error e) eqn:Hc; [|reflexivity].
    destruct (answer_raise _ _ He Hc) as [v Hv]. now apply Hthrow in Hv. }
  assert (Hinstall : forall sent j v,
             answer loads (gateway (login_request (config w) :: sent)) = Return j ->
             py_getitem j "token" = Return v -> isinstance_str v = true).
  { intros sent j v Hj Hv.
    apply answer_return in Hj. destruct Hj as (text & Hreply & Hloads).
    apply py_getitem_return in Hv. destruct Hv as (d & -> & Hget).
    exact (Hlogin sent (login_request (config w)) text d v eq_refl Hreply Hloads Hget). }
  destruct retry; run_cases H.
  all: repeat match goal with
         | Hj : answer loads (gateway (login_request _ :: ?s)) = Return ?j,
           Hv : py_getitem ?j "token" = Return ?v |- _ =>
             pose proof (Hinstall s j v Hj Hv); clear Hv
         | Hb : negb (truthy (token _)) = false |- _ =>
             apply (held_token_is_str _ Htoken) in Hb
         end.
  all: try congruence.
  all: split;
    [ first [assumption | apply isinstance_str_none_or_str; assumption]
    | first [ reflexivity | exact I
            | eapply Hanswer; eassumption
            | eapply py_in_raise; eassumption
            | eapply py_getitem_raise; eassumption
            | idtac ] ].
  all: try congruence.
  all: match goal with
       | |- match ?r with Return _ => True | Raise _ => _ end =>
           destruct r eqn:Hr; [exact I | eapply Hanswer; eassumption]
       end.
Qed.

End Runs.

(** What a call with authorization leaves alone. *)
Section Frame.

Variable loads : string -> option json.
Variable gateway : list request -> post_result.

Lemma api_call_unrolled_frame verb action params retry w r w' :
  api_call_unrolled loads gateway verb action params true retry w = Some (r, w') ->
  exists new,
    posts w' = (new ++ posts w)%list /\
    config w' = config w /\
    Forall (fun q => q = login_request (config w)) (unauthorized new) /\
    (unauthorized new = [] -> token w' = token w).
Proof.
  intros H. destruct retry; run_cases H; name_exchanges.
  all: split; [reflexivity|].
  all: split; [count_exchanges; repeat (constructor; [reflexivity|]); constructor|].
  all: count_exchanges; first [reflexivity | discriminate].
Qed.

Lemma api_call_unrolled_login_first verb action params retry w r w' :
  truthy (token w) = false ->
  api_call_unrolled loads gateway verb action params true retry w = Some (r, w') ->
  exists new, posts w' = (new ++ login_request (config w) :: posts w)%list.
Proof.
  intros Htoken H.
  unfold api_call_unrolled, ensure_token, bind at 1 in H.
  rewrite Htoken in H. cbn [andb negb] in H.
  destruct retry; run_cases H.
  all: lazymatch goal with
       | |- exists new, ?l = (new ++ ?base)%list =>
           let new := sent_since l base in exists new; reflexivity
       end.
Qed.

End Frame.

(** ** [api_call]: retry and termination *)

(** C1 fails on the code.  The session has expired: the gateway answers the
    first call that carries the bearer token with [{"errors":[403]}], which
    [evaluate_response] classifies as [InvalidToken(403)], and would answer a
    second one with [{"result":true}].  [api_call] makes one exchange and
    returns the error envelope as its result: nothing on its path evaluates
    the response, so [InvalidToken] is never raised inside the [try], no
    login follows, the call is not issued again and the stale token stays. *)
Theorem api_call_expired_session_not_retried :
  api_call Decoder.json_loads gateway_expired 3 "scenes" "get" JNull true false
    (holding (JStr "stale")) =
  Some (Return (JDict [("errors", JList [JInt 403])]),
        with_post (bearer_request klf200 "scenes" "get" JNull "stale")
          (holding (JStr "stale"))) /\
  evaluate_response (JDict [("errors", JList [JInt 403])]) = Raise (InvalidToken (JInt 403)) /\
  gateway_expired
    [bearer_request klf200 "scenes" "get" JNull "fresh";
     login_request klf200;
     bearer_request klf200 "scenes" "get" JNull "stale"] = Reply (text "{`result`:true}").
Proof. repeat split; vm_compute; reflexivity. Qed.

(** C2 fails on the code, by the defect of C1.  A gateway that answers every
    request with [{"errors":[403]}] signals an invalid token each time, as
    [evaluate_response] shows; yet no invalid-token failure reaches the
    caller: on a first call, on a call that is already a retry and on a
    call without authorization alike, [api_call] makes one exchange and
    returns the error envelope as its result. *)
Theorem api_call_returns_invalid_token_envelope :
  api_call Decoder.json_loads gateway_forbidden 3 "scenes" "get" JNull true false
    (holding (JStr "stale")) =
  Some (Return (JDict [("errors", JList [JInt 403])]),
        with_post (bearer_request klf200 "scenes" "get" JNull "stale")
          (holding (JStr "stale"))) /\
  api_call Decoder.json_loads gateway_forbidden 3 "scenes" "get" JNull true true
    (holding (JStr "stale")) =
  Some (Return (JDict [("errors", JList [JInt 403])]),
        with_post (bearer_request klf200 "scenes" "get" JNull "stale")
          (holding (JStr "stale"))) /\
  api_call Decoder.json_loads gateway_forbidden 3 "scenes" "get" JNull false false
    (holding (JStr "stale")) =
  Some (Return (JDict [("errors", JList [JInt 403])]),
        with_post (plain_request klf200 "scenes" "get" JNull) (holding (JStr "stale"))) /\
  evaluate_response (JDict [("errors", JList [JInt 403])]) = Raise (InvalidToken (JInt 403)).
Proof. repeat split; vm_compute; reflexivity. Qed.

(** X21. A call of [api_call] ends (three levels of calls suffice), with at
    most two exchanges of its own and at most five in all; with
    [retry=True] or without authorization there is at most one of its own.
    Every exchange of its own sends the same url and body. *)
Theorem api_call_retries_at_most_once
    (loads : string -> option json) (gateway : list request -> post_result)
    (fuel : nat) (verb action : string) (params : json) (auth retry : bool) (w : world) :
  (3 <= fuel)%nat ->
  exists r w' new,
    api_call loads gateway fuel verb action params auth retry w = Some (r, w') /\
    posts w' = (new ++ posts w)%list /\
    (List.length new <= 5)%nat /\
    (List.length (attempts auth new) <= 2)%nat /\
    (retry = true \/ auth = false -> List.length (attempts auth new) <= 1)%nat /\
    Forall (fun q => url q = create_api_url (host (config w)) verb /\
                     data q = create_body action params) (attempts auth new).
Proof.
  intros Hfuel.
  destruct (api_call_unrolled_total loads gateway verb action params auth retry w)
    as (r & w' & Hrun).
  destruct (api_call_unrolled_run _ _ _ _ _ _ _ _ _ _ Hrun)
    as (new & Hposts & Hall & Hown & Hone & Hsame & _).
  exists r, w', new. repeat split; try assumption.
  rewrite api_call_unroll by exact Hfuel. exact Hrun.
Qed.

Lemma api_call_retries_at_most_once_witness :
  exists r w' new,
    api_call Decoder.json_loads gateway_rejecting 3 "scenes" "get" JNull true false
      (holding (JStr "stale")) = Some (r, w') /\
    posts w' = (new ++ posts (holding (JStr "stale")))%list /\
    (List.length new <= 5)%nat /\
    (List.length (attempts true new) <= 2)%nat /\
    (false = true \/ true = false -> List.length (attempts true new) <= 1)%nat /\
    Forall (fun q => url q = create_api_url (host (config (holding (JStr "stale")))) "scenes" /\
                     data q = create_body "get" JNull) (attempts true new).
Proof.
  apply (api_call_retries_at_most_once Decoder.json_loads gateway_rejecting 3
           "scenes" "get" JNull true false (holding (JStr "stale"))).
  lia.
Defined.

(** Under a persistent [InvalidToken] the call logs in once, tries a second
    time with the fresh token and gives up. *)
Example api_call_rejected_twice :
  api_call Decoder.json_loads gateway_rejecting 3 "scenes" "get" JNull true false
    (holding (JStr "stale")) =
  Some (Raise (InvalidToken (JInt 403)),
        {| config := klf200; token := JStr "fresh";
           posts := [bearer_request klf200 "scenes" "get" JNull "fresh";
                     login_request klf200;
                     bearer_request klf200 "scenes" "get" JNull "stale"] |}).
Proof. vm_compute. reflexivity. Qed.

(** ** [api_call]: responses that are not JSON *)

(** C4, as stated, fails: on the response text [not json] the caller gets
    the decoder's own [JSONDecodeError], which is not one of the library's
    exceptions. *)
Lemma api_call_garbled_raises_decoder_exception :
  Decoder.json_loads (fix_response "not json") = None /\
  api_call Decoder.json_loads gateway_garbled 3 "scenes" "get" JNull true false
    (holding (JStr "stale")) =
  Some (Raise JSONDecodeError,
        with_post (bearer_request klf200 "scenes" "get" JNull "stale")
          (holding (JStr "stale"))) /\
  is_pyvlx_exception JSONDecodeError = false.
Proof. repeat split; vm_compute; reflexivity. Qed.

(** C4, amended. Whenever the text of a response of the gateway, after
    [fix_response], is not valid JSON, that exchange is the last one of the
    call and [api_call] raises the decoder's [JSONDecodeError] as it is:
    the exception is not wrapped in [PyVLXException], the class that
    transport failures are turned into. *)
Theorem api_call_undecodable_response
    (loads : string -> option json) (gateway : list request -> post_result)
    (fuel : nat) (verb action : string) (params : json) (auth retry : bool) (w : world) :
  (3 <= fuel)%nat ->
  exists r w',
    api_call loads gateway fuel verb action params auth retry w = Some (r, w') /\
    forall later sent text,
      posts w' = (later ++ sent ++ posts w)%list -> sent <> [] ->
      gateway (sent ++ posts w)%list = Reply text -> loads (fix_response text) = None ->
      later = [] /\ r = Raise JSONDecodeError /\
      forall e, r = Raise e -> is_pyvlx_exception e = false.
Proof.
  intros Hfuel.
  destruct (api_call_unrolled_total loads gateway verb action params auth retry w)
    as (r & w' & Hrun).
  exists r, w'. split; [rewrite api_call_unroll by exact Hfuel; exact Hrun|].
  intros later sent text Hsplit Hsent Hreply Hloads.
  destruct (api_call_unrolled_undecodable _ _ _ _ _ _ _ _ _ _ Hrun
              later sent text Hsplit Hsent Hreply Hloads) as [-> ->].
  repeat split. intros e He. injection He as <-. reflexivity.
Qed.

Lemma api_call_undecodable_response_witness :
  exists w',
    api_call Decoder.json_loads gateway_garbled 3 "scenes" "get" JNull true false
      (holding (JStr "stale")) = Some (Raise JSONDecodeError, w').
Proof.
  destruct (api_call_undecodable_response Decoder.json_loads gateway_garbled 3
              "scenes" "get" JNull true false (holding (JStr "stale")))
    as (r & w' & Hrun & Hraw); [lia|].
  exists w'.
  assert (Hposts : posts w' =
            ([] ++ [bearer_request klf200 "scenes" "get" JNull "stale"]
                ++ posts (holding (JStr "stale")))%list).
  { pose proof Hrun as Hc. vm_compute in Hc. injection Hc as _ <-. reflexivity. }
  destruct (Hraw [] [bearer_request klf200 "scenes" "get" JNull "stale"] "not json" Hposts)
    as (_ & -> & _).
  - discriminate.
  - reflexivity.
  - vm_compute. reflexivity.
  - exact Hrun.
Defined.

(** ** [refresh_token] *)

(** C8. When the login response is a JSON object without a [token] item,
    [refresh_token] raises [PyVLXException('no element token found ...')] and
    the held token is what it was, whatever it was; when the object has a
    [token] item, its value is the held token afterwards. *)
Theorem refresh_token_installs_token
    (loads : string -> option json) (gateway : list request -> post_result)
    (fuel : nat) (w : world) (text : string) (d : list (string * json)) :
  (1 <= fuel)%nat ->
  gateway (login_request (config w) :: posts w) = Reply text ->
  loads (fix_response text) = Some (JDict d) ->
  (dict_get "token" d = None ->
   refresh_token loads gateway fuel w =
   Some (Raise (PyVLXException "no element token found in response: {0}" (Some (JDict d))),
         {| config := config w; token := token w;
            posts := login_request (config w) :: posts w |})) /\
  (forall v, dict_get "token" d = Some v ->
   refresh_token loads gateway fuel w =
   Some (Return tt,
         {| config := config w; token := v;
            posts := login_request (config w) :: posts w |})).
Proof.
  intros Hfuel Hreply Hloads.
  destruct fuel as [|fuel]; [lia|].
  rewrite refresh_token_login.
  unfold login, exchange. rewrite Hreply. cbn [answer]. rewrite Hloads.
  unfold install_token, py_in, py_getitem.
  split.
  - intros ->. reflexivity.
  - intros v ->. reflexivity.
Qed.

Lemma refresh_token_installs_token_witness :
  refresh_token Decoder.json_loads gateway_no_token 1 (holding (JStr "stale")) =
  Some (Raise (PyVLXException "no element token found in response: {0}"
                 (Some (JDict [("result", JBool true)]))),
        {| config := klf200; token := JStr "stale"; posts := [login_request klf200] |}) /\
  refresh_token Decoder.json_loads gateway_expired 1 (holding JNull) =
  Some (Return tt,
        {| config := klf200; token := JStr "fresh"; posts := [login_request klf200] |}).
Proof.
  split.
  - apply (proj1 (refresh_token_installs_token Decoder.json_loads gateway_no_token 1
                    (holding (JStr "stale")) (text "{`result`:true}")
                    [("result", JBool true)] (le_n 1) eq_refl eq_refl)).
    reflexivity.
  - apply (proj2 (refresh_token_installs_token Decoder.json_loads gateway_expired 1
                    (holding JNull) (text "{`token`:`fresh`}")
                    [("token", JStr "fresh")] (le_n 1) eq_refl eq_refl)).
    reflexivity.
Defined.

(** ** [disconnect] *)

(** C3, as stated, fails: when the logout exchange ends in an [OSError],
    [disconnect] raises and the token is still held. *)
Lemma disconnect_keeps_token_when_logout_fails :
  disconnect Decoder.json_loads gateway_down 3 (holding (JStr "stale")) =
  Some (Raise (PyVLXException "OS error when talking to VELUX API" None),
        {| config := klf200; token := JStr "stale";
           posts := [bearer_request klf200 "auth" "logout" (JDict []) "stale"] |}) /\
  JStr "stale" <> JNull.
Proof. split; [vm_compute; reflexivity | discriminate]. Qed.

(** C3, amended. [disconnect] clears the held token exactly when its logout
    call returns, whatever envelope the gateway sent (the envelope is not
    evaluated).  When the logout call raises, whatever it raises,
    [disconnect] raises the same exception and assigns nothing: the world
    is as [api_call] left it, and the held token is the one held before
    unless a login was made during the call.  In particular, with a
    non-empty string token held, a transport error on the logout exchange
    leaves [disconnect] as a [PyVLXException] and that token stays held. *)
Theorem disconnect_clears_token_on_return
    (loads : string -> option json) (gateway : list request -> post_result)
    (fuel : nat) (w : world) :
  (3 <= fuel)%nat ->
  (exists r0 w0 new,
      api_call loads gateway fuel "auth" "logout" (JDict []) true false w = Some (r0, w0) /\
      posts w0 = (new ++ posts w)%list /\
      (unauthorized new = [] -> token w0 = token w) /\
      disconnect loads gateway fuel w =
      match r0 with
      | Return _ => Some (Return tt, {| config := config w0; token := JNull;
                                        posts := posts w0 |})
      | Raise e => Some (Raise e, w0)
      end) /\
  (forall w', disconnect loads gateway fuel w = Some (Return tt, w') -> token w' = JNull) /\
  (forall t, token w = JStr t -> t <> EmptyString ->
     let logout := bearer_request (config w) "auth" "logout" (JDict []) t in
     (forall text envelope,
         gateway (logout :: posts w) = Reply text ->
         loads (fix_response text) = Some envelope ->
         disconnect loads gateway fuel w =
         Some (Return tt, {| config := config w; token := JNull;
                             posts := logout :: posts w |})) /\
     (forall e,
         gateway (logout :: posts w) = Throws e -> transport_error e = true ->
         exists description,
           disconnect loads gateway fuel w =
           Some (Raise (PyVLXException description None),
                 {| config := config w; token := JStr t;
                    posts := logout :: posts w |}))).
Proof.
  intros Hfuel. unfold disconnect, bind. rewrite api_call_unroll by exact Hfuel.
  split; [|split].
  - destruct (api_call_unrolled_total loads gateway "auth" "logout" (JDict []) true false w)
      as (r0 & w0 & Hrun).
    destruct (api_call_unrolled_frame _ _ _ _ _ _ _ _ _ Hrun)
      as (new & Hposts & _ & _ & Htoken).
    exists r0, w0, new. rewrite Hrun.
    split; [reflexivity|]. split; [exact Hposts|]. split; [exact Htoken|].
    destruct r0; reflexivity.
  - intros w' H.
    destruct (api_call_unrolled loads gateway "auth" "logout" (JDict []) true false w)
      as [[[v|e] w1]|]; try discriminate H.
    unfold set_token in H. injection H as <-. reflexivity.
  - intros t Htoken Ht.
    assert (Hheld : negb (truthy (token w)) = false).
    { rewrite Htoken. cbn [truthy]. destruct (String.eqb_spec t EmptyString); [contradiction|].
      reflexivity. }
    unfold api_call_unrolled, ensure_token, bind, try_except_InvalidToken.
    cbn [andb]. rewrite Hheld, _api_call_impl_exchange, Htoken.
    cbn [create_headers app]. unfold exchange, bearer_request.
    split.
    + intros text envelope Hreply Hloads.
      rewrite Hreply. cbn [answer]. rewrite Hloads.
      unfold set_token, with_token, with_post. cbn [config posts token]. reflexivity.
    + intros e Hthrow Htransport. rewrite Hthrow.
      unfold with_post. rewrite Htoken.
      destruct e; try discriminate Htransport; cbn [answer]; eexists; reflexivity.
Qed.

Lemma disconnect_clears_token_on_return_witness :
  disconnect Decoder.json_loads gateway_expired 3 (holding (JStr "stale")) =
  Some (Return tt,
        {| config := klf200; token := JNull;
           posts := [bearer_request klf200 "auth" "logout" (JDict []) "stale"] |}).
Proof.
  apply (proj1 (proj2 (proj2 (disconnect_clears_token_on_return Decoder.json_loads
                                gateway_expired 3 (holding (JStr "stale")) (le_n 3)))
                 "stale" eq_refl ltac:(discriminate))
           (text "{`errors`:[403]}") (JDict [("errors", JList [JInt 403])]));
    vm_compute; reflexivity.
Defined.

(** With no token held the login comes first: when the logout then fails,
    the token of the login is held, not the one held before. *)
Example disconnect_after_login_keeps_new_token :
  disconnect Decoder.json_loads
    (scripted (Reply (text "{`token`:`fresh`}")) [] (Throws OSError)) 3 (__init__ klf200) =
  Some (Raise (PyVLXException "OS error when talking to VELUX API" None),
        {| config := klf200; token := JStr "fresh";
           posts := [bearer_request klf200 "auth" "logout" (JDict []) "fresh";
                     login_request klf200] |}).
Proof. vm_compute. reflexivity. Qed.

(** ** The bearer token of [create_headers] *)

(** C10, as stated, fails: no token is held and the gateway answers the
    login with [{"token": null}]; [refresh_token] installs [None] without
    raising, header construction is reached and ['Bearer ' + None] raises
    [TypeError]. *)
Lemma api_call_concatenates_null_token :
  api_call Decoder.json_loads gateway_null_token 3 "scenes" "get" JNull true false
    (holding JNull) =
  Some (Raise (TypeError (ConcatStr JNull)),
        {| config := klf200; token := JNull; posts := [login_request klf200] |}).
Proof. vm_compute. reflexivity. Qed.

(** C10, amended. Let the token held on entry be [None] or a [str], and let
    every [token] item in a login response be a [str].  Then in every
    execution of [api_call] with [add_authorization_token=True] the
    concatenation ['Bearer ' + token] of [create_headers] never raises, and
    the token held at the end is again [None] or a [str]: [api_call] first
    runs [refresh_token] when no token is held, and [refresh_token] installs
    the [token] item of the response or raises before any headers are built.
    (The gateway is taken not to raise that [TypeError] itself.) *)
Theorem api_call_bearer_token_is_str
    (loads : string -> option json) (gateway : list request -> post_result)
    (fuel : nat) (verb action : string) (params : json) (retry : bool) (w : world) :
  (3 <= fuel)%nat ->
  (forall sent q text d v,
      has_authorization q = false -> gateway (q :: sent) = Reply text ->
      loads (fix_response text) = Some (JDict d) -> dict_get "token" d = Some v ->
      isinstance_str v = true) ->
  (forall sent v, gateway sent <> Throws (TypeError (ConcatStr v))) ->
  none_or_str (token w) = true ->
  exists r w',
    api_call loads gateway fuel verb action params true retry w = Some (r, w') /\
    none_or_str (token w') = true /\
    forall v, r <> Raise (TypeError (ConcatStr v)).
Proof.
  intros Hfuel Hlogin Hthrow Htoken.
  destruct (api_call_unrolled_total loads gateway verb action params true retry w)
    as (r & w' & Hrun).
  exists r, w'. split; [rewrite api_call_unroll by exact Hfuel; exact Hrun|].
  destruct (api_call_unrolled_bearer _ _ _ _ _ _ _ _ _ Hlogin Hthrow Htoken Hrun)
    as [Hheld Hr].
  split; [exact Hheld|].
  intros v ->. discriminate Hr.
Qed.

Lemma gateway_expired_string_tokens (sent : list request) (q : request) (text : string)
    (d : list (string * json)) (v : json) :
  has_authorization q = false -> gateway_expired (q :: sent) = Reply text ->
  Decoder.json_loads (fix_response text) = Some (JDict d) -> dict_get "token" d = Some v ->
  isinstance_str v = true.
Proof.
  intros Hq Hreply Hloads Hget.
  unfold gateway_expired, scripted in Hreply. rewrite Hq in Hreply.
  injection Hreply as <-.
  vm_compute in Hloads. injection Hloads as <-.
  vm_compute in Hget. injection Hget as <-. reflexivity.
Defined.

Lemma gateway_expired_replies (sent : list request) (v : json) :
  gateway_expired sent <> Throws (TypeError (ConcatStr v)).
Proof.
  unfold gateway_expired, scripted.
  destruct sent as [|q sent]; [discriminate|].
  destruct (has_authorization q); [|discriminate].
  destruct (Nat.pred (List.length (authorized (q :: sent)))) as [|[|[|n]]]; discriminate.
Defined.

Lemma api_call_bearer_token_is_str_witness :
  exists r w',
    api_call Decoder.json_loads gateway_expired 3 "scenes" "get" JNull true false
      (holding JNull) = Some (r, w') /\
    none_or_str (token w') = true /\
    forall v, r <> Raise (TypeError (ConcatStr v)).
Proof.
  apply (api_call_bearer_token_is_str Decoder.json_loads gateway_expired 3
           "scenes" "get" JNull false (holding JNull)).
  - lia.
  - exact gateway_expired_string_tokens.
  - exact gateway_expired_replies.
  - reflexivity.
Defined.

(** * Further properties *)

(** ** [fix_response] *)

Lemma find_range (c : ascii) (s : string) : -1 <= find c s.
Proof.
  induction s as [|a s IH]; cbn [find]; [lia|].
  destruct (Ascii.eqb a c); [lia|].
  destruct (Z.ltb_spec (find c s) 0); lia.
Qed.

(** Where [find] points, the character is found and nothing before it is. *)
Lemma find_split (c : ascii) (s : string) :
  0 <= find c s ->
  exists pre post,
    s = pre ++ String c post /\ ~ In c (list_ascii_of_string pre) /\
    find c s = Z.of_nat (String.length pre).
Proof.
  induction s as [|a s IH]; cbn [find]; [lia|].
  destruct (Ascii.eqb_spec a c) as [->|Hne].
  - intros _. exists EmptyString, s. repeat split. intros [].
  - destruct (Z.ltb_spec (find c s) 0) as [Hneg|Hpos]; [lia|].
    intros _. destruct (IH Hpos) as (pre & post & -> & Hnot & Hlen).
    exists (String a pre), post. repeat split.
    + cbn [list_ascii_of_string In]. intros [Heq|Hin]; [contradiction | now apply Hnot].
    + rewrite Hlen. cbn [String.length]. lia.
Qed.

Lemma find_negative (c : ascii) (s : string) :
  find c s < 0 -> ~ In c (list_ascii_of_string s).
Proof.
  induction s as [|a s IH]; cbn [find list_ascii_of_string In]; [tauto|].
  destruct (Ascii.eqb_spec a c) as [->|Hne]; [lia|].
  destruct (Z.ltb_spec (find c s) 0) as [Hneg|Hpos]; [|lia].
  intros _ [Heq|Hin]; [contradiction | now apply IH].
Qed.

(** X1. What [fix_response] returns is the response without a prefix that has no
    "{" in it: no brace and nothing after the first brace is ever dropped. *)
Theorem fix_response_suffix (response : string) :
  exists pre,
    response = pre ++ fix_response response /\
    ~ In "{"%char (list_ascii_of_string pre).
Proof.
  unfold fix_response.
  destruct (Z.ltb_spec 0 (find "{"%char response)) as [Hpos|Hnot].
  - destruct (find_split "{"%char response) as (pre & post & -> & Hpre & Hlen); [lia|].
    exists pre. rewrite Hlen, Nat2Z.id, slice_from_append. now split.
  - exists EmptyString. split; [reflexivity | intros []].
Qed.

(** X2. Repairing a repaired response changes nothing. *)
Theorem fix_response_idempotent (response : string) :
  fix_response (fix_response response) = fix_response response.
Proof.
  destruct (Z.ltb_spec 0 (find "{"%char response)) as [Hpos|Hnot].
  - destruct (find_split "{"%char response) as (pre & post & -> & Hpre & Hlen); [lia|].
    rewrite (fix_response_strips _ _ Hpre).
    apply (fix_response_strips EmptyString post). intros [].
  - assert (Hsame : fix_response response = response).
    { unfold fix_response.
      destruct (Z.ltb_spec 0 (find "{"%char response)); [lia | reflexivity]. }
    now rewrite !Hsame.
Qed.

(** X3. [fix_response] leaves a response as it is exactly when the response has
    no "{" or starts with one; a response with a first "{" further in, such
    as a JSON array of objects, loses what stands before it. *)
Theorem fix_response_unchanged_iff (response : string) :
  fix_response response = response <->
  ~ In "{"%char (list_ascii_of_string response) \/
  exists rest, response = String "{" rest.
Proof.
  split.
  - intros Hfix.
    destruct (Z.ltb_spec (find "{"%char response) 0) as [Hneg|Hfound].
    + left. now apply find_negative.
    + right. destruct (find_split "{"%char response Hfound)
        as (pre & post & Hresp & Hpre & Hlen).
      destruct pre as [|a pre]; [now exists post|].
      exfalso. subst response.
      rewrite (fix_response_strips _ _ Hpre) in Hfix.
      apply (f_equal String.length) in Hfix.
      cbn [append String.length] in Hfix.
      assert (Hl : forall s1 s2, String.length (s1 ++ s2) =
                                 (String.length s1 + String.length s2)%nat).
      { induction s1; intros; cbn [append String.length]; [reflexivity|].
        now rewrite IHs1. }
      rewrite Hl in Hfix. cbn [String.length] in Hfix. lia.
  - intros [Hnone | [rest ->]].
    + now apply fix_response_no_brace.
    + apply (fix_response_strips EmptyString rest). intros [].
Qed.

(** ** Requests *)

(** X4. [create_headers] raises exactly when the bearer token is asked for and
    the token is not a [str] (then a [TypeError]); without authorization
    the token never reaches the headers. *)
Theorem create_headers_raises_iff (add_authorization_token : bool) (token : json) :
  ((exists e, create_headers add_authorization_token token = Raise e) <->
   add_authorization_token = true /\ isinstance_str token = false) /\
  (forall e, create_headers add_authorization_token token = Raise e ->
             e = TypeError (ConcatStr token)) /\
  (forall token', create_headers false token = create_headers false token').
Proof.
  split; [|split].
  - split.
    + intros [e He]. apply create_headers_raises in He. tauto.
    + intros [-> Hstr]. exists (TypeError (ConcatStr token)).
      destruct token; try reflexivity. discriminate Hstr.
  - intros e He. apply create_headers_raises in He. tauto.
  - reflexivity.
Qed.

(** X5. Two intents have the same request body only when they have the same
    action and the same parameters ([None] included). *)
Theorem create_body_injective (action action' : string) (params params' : json) :
  create_body action params = create_body action' params' ->
  action = action' /\ params = params'.
Proof.
  unfold create_body.
  destruct params, params'; cbn [app]; intros H; inversion H; subst; auto.
Qed.

Lemma create_body_injective_witness :
  "login" = "login" /\ JDict [("password", JStr "velux123")] = JDict [("password", JStr "velux123")].
Proof.
  apply (create_body_injective "login" "login"
           (JDict [("password", JStr "velux123")]) (JDict [("password", JStr "velux123")])).
  reflexivity.
Defined.

Lemma append_cancel_l (s a b : string) : (s ++ a = s ++ b)%string -> a = b.
Proof.
  induction s as [|c s IH]; cbn [append]; [tauto|].
  intros H. injection H as H. now apply IH.
Qed.

(** X6. On one host, different verbs have different urls. *)
Theorem create_api_url_injective (host verb verb' : string) :
  create_api_url host verb = create_api_url host verb' -> verb = verb'.
Proof.
  unfold create_api_url. intros H.
  repeat (apply append_cancel_l in H). exact H.
Qed.

Lemma create_api_url_injective_witness : "scenes" = "scenes".
Proof. apply (create_api_url_injective "klf200" "scenes" "scenes"). reflexivity. Defined.

(** ** Evaluation of responses *)

Lemma evaluate_errors_raises (json_response : json) :
  exists e, evaluate_errors json_response = Raise e.
Proof.
  unfold evaluate_errors, could_not_evaluate, bind_outcome.
  destruct (py_in "errors" json_response) as [[|]|e]; cbn [negb]; eauto.
  destruct (py_getitem json_response "errors") as [errors|e]; eauto.
  destruct errors as [| | | | |l|]; cbn [isinstance_list negb]; eauto.
  destruct l as [|first_error rest]; cbn [truthy negb]; eauto.
  destruct (isinstance_int first_error); cbn [negb]; eauto.
  destruct (in_int_list first_error auth_failure_codes); eauto.
Qed.

(** X7. [evaluate_errors] never returns: whatever it is given, even an envelope
    without errors, it raises. *)
Theorem evaluate_errors_never_returns (json_response : json) :
  evaluate_errors json_response <> Return tt.
Proof.
  destruct (evaluate_errors_raises json_response) as [e ->]. discriminate.
Qed.

Lemma py_in_true_not_dict (key : string) (j : json) :
  (forall d, j <> JDict d) -> py_in key j = Return true ->
  exists e, py_getitem j key = Raise e.
Proof.
  intros Hj _. destruct j; cbn [py_getitem]; eauto.
  now destruct (Hj d).
Qed.

(** On a value that is not a dict [evaluate_response] raises. *)
Lemma evaluate_response_not_dict (j : json) :
  (forall d, j <> JDict d) -> exists e, evaluate_response j = Raise e.
Proof.
  intros Hj. unfold evaluate_response, has_truthy, bind_outcome.
  destruct (py_in "errors" j) as [[|]|e] eqn:Herrors; eauto.
  - destruct (py_in_true_not_dict _ _ Hj Herrors) as [e ->]. eauto.
  - destruct (py_in "result" j) as [[|]|e] eqn:Hresult; cbn [negb]; eauto.
    destruct (py_in_true_not_dict _ _ Hj Hresult) as [e ->]. eauto.
Qed.

(** X8. [evaluate_response] returns exactly on a JSON object whose [result] is
    present and truthy and whose [errors] is missing or falsy: truthy
    [errors] win over any [result]. *)
Theorem evaluate_response_returns_iff (json_response : json) :
  evaluate_response json_response = Return tt <->
  exists d result,
    json_response = JDict d /\
    dict_get "result" d = Some result /\ truthy result = true /\
    match dict_get "errors" d with Some errors => truthy errors = false | None => True end.
Proof.
  split.
  - intros Hret.
    destruct json_response as [| | | | | |d];
      try (match type of Hret with
           | evaluate_response ?j = _ =>
               destruct (evaluate_response_not_dict j) as [e He];
               [intros d0; discriminate|]; rewrite He in Hret; discriminate Hret
           end).
    rewrite evaluate_response_dict in Hret.
    destruct (dict_get "errors" d) as [errors|] eqn:Herrors.
    + destruct (truthy errors) eqn:Htruthy.
      * destruct (evaluate_errors_raises (JDict d)) as [e He].
        rewrite He in Hret. discriminate Hret.
      * destruct (dict_get "result" d) as [result|] eqn:Hresult; [|discriminate Hret].
        destruct (truthy result) eqn:Hres; [|discriminate Hret].
        exists d, result. rewrite Herrors. auto.
    + destruct (dict_get "result" d) as [result|] eqn:Hresult; [|discriminate Hret].
      destruct (truthy result) eqn:Hres; [|discriminate Hret].
      exists d, result. rewrite Herrors. auto.
  - intros (d & result & -> & Hresult & Htruthy & Herrors).
    rewrite evaluate_response_dict, Hresult, Htruthy.
    destruct (dict_get "errors" d) as [errors|]; [now rewrite Herrors | reflexivity].
Qed.

(** X9. [InvalidToken] is raised exactly for a JSON object whose [errors] is a
    list that starts with one of the integers 402, 403, 405 and 406, and it
    carries that integer; a boolean in first place is an [int] for
    [isinstance] but never an invalid token. *)
Theorem evaluate_response_invalid_token_iff (json_response code : json) :
  evaluate_response json_response = Raise (InvalidToken code) <->
  exists d z rest,
    json_response = JDict d /\
    dict_get "errors" d = Some (JList (JInt z :: rest)) /\
    In z [402; 403; 405; 406] /\ code = JInt z.
Proof.
  split.
  - intros Hraise.
    destruct json_response as [| | | |s|l|d]; try discriminate Hraise.
    + unfold evaluate_response, has_truthy, bind_outcome in Hraise.
      cbn [py_in py_getitem] in Hraise.
      destruct (index 0 "errors" s); [discriminate Hraise|].
      destruct (index 0 "result" s); discriminate Hraise.
    + unfold evaluate_response, has_truthy, bind_outcome in Hraise.
      cbn [py_in py_getitem] in Hraise.
      destruct (existsb _ l); [discriminate Hraise|].
      destruct (existsb _ l); discriminate Hraise.
    + rewrite evaluate_response_dict in Hraise.
      destruct (dict_get "errors" d) as [errors|] eqn:Herrors.
      * destruct (truthy errors) eqn:Htruthy.
        -- rewrite evaluate_errors_dict, Herrors in Hraise.
           destruct errors as [| | | | |l|]; try discriminate Hraise.
           destruct l as [|first_error rest]; [discriminate Hraise|].
           destruct first_error as [|b|z| | | |]; try discriminate Hraise.
           ++ destruct b; discriminate Hraise.
           ++ cbn [isinstance_int] in Hraise.
              destruct (in_int_list (JInt z) auth_failure_codes) eqn:Hin;
                [|discriminate Hraise].
              injection Hraise as <-.
              exists d, z, rest.
              split; [reflexivity|]. split; [exact Herrors|].
              split; [now apply in_auth_failure_codes | reflexivity].
        -- destruct (dict_get "result" d) as [result|]; [|discriminate Hraise].
           destruct (truthy result); discriminate Hraise.
      * destruct (dict_get "result" d) as [result|]; [|discriminate Hraise].
        destruct (truthy result); discriminate Hraise.
  - intros (d & z & rest & -> & Herrors & Hz & ->).
    rewrite evaluate_response_dict, Herrors, evaluate_errors_dict, Herrors.
    cbn [truthy isinstance_int].
    apply in_auth_failure_codes in Hz. now rewrite Hz.
Qed.

(** X10. On a JSON object [evaluate_response] and [evaluate_errors] raise nothing
    but the library's own exceptions: no [KeyError] and no [TypeError]. *)
Theorem evaluate_response_typed_on_objects (d : list (string * json)) (e : exn) :
  evaluate_response (JDict d) = Raise e \/ evaluate_errors (JDict d) = Raise e ->
  is_pyvlx_exception e = true.
Proof.
  assert (Herr : evaluate_errors (JDict d) = Raise e -> is_pyvlx_exception e = true).
  { rewrite evaluate_errors_dict. unfold could_not_evaluate.
    destruct (dict_get "errors" d) as [errors|]; [|now intros H; injection H as <-].
    destruct errors as [| | | | |l|]; try (now intros H; injection H as <-).
    destruct l as [|first_error rest]; [now intros H; injection H as <-|].
    destruct (isinstance_int first_error); [|now intros H; injection H as <-].
    destruct (in_int_list first_error auth_failure_codes);
      now intros H; injection H as <-. }
  intros [H|H]; [|exact (Herr H)].
  rewrite evaluate_response_dict in H.
  destruct (match dict_get "errors" d with Some v => truthy v | None => false end);
    [exact (Herr H)|].
  destruct (dict_get "result" d) as [result|]; [|now injection H as <-].
  destruct (truthy result); [discriminate H | now injection H as <-].
Qed.

Lemma evaluate_response_typed_on_objects_witness :
  is_pyvlx_exception (InvalidToken (JInt 403)) = true.
Proof.
  apply (evaluate_response_typed_on_objects [("errors", JList [JInt 403])]).
  left. reflexivity.
Defined.

(** ** Paths through [api_call] *)

Section Paths.

Variable loads : string -> option json.
Variable gateway : list request -> post_result.

Lemma attempt_with_bearer verb action params w t :
  token w = JStr t ->
  _api_call_impl loads gateway verb action params true w =
  exchange loads gateway (bearer_request (config w) verb action params t) w.
Proof. intros H. rewrite _api_call_impl_exchange, H. reflexivity. Qed.

Lemma attempt_plain verb action params w :
  _api_call_impl loads gateway verb action params false w =
  exchange loads gateway (plain_request (config w) verb action params) w.
Proof. rewrite _api_call_impl_exchange. reflexivity. Qed.

Lemma truthy_nonempty t : t <> EmptyString -> truthy (JStr t) = true.
Proof.
  intros Ht. cbn [truthy]. destruct (String.eqb_spec t EmptyString); [contradiction|reflexivity].
Qed.

Lemma answer_reply text v :
  loads (fix_response text) = Some v -> answer loads (Reply text) = Return v.
Proof. intros H. cbn [answer]. now rewrite H. Qed.

Lemma answer_throws e :
  (transport_error e = true ->
   exists description, answer loads (Throws e) = Raise (PyVLXException description None)) /\
  (transport_error e = false -> answer loads (Throws e) = Raise e).
Proof. destruct e; cbn [answer transport_error]; split; intros H; try discriminate H; eauto. Qed.

(** What a login exchange leaves behind. *)
Lemma login_frame w :
  exists r w',
    login loads gateway w = Some (r, w') /\
    posts w' = login_request (config w) :: posts w /\
    config w' = config w /\
    (forall e, r = Raise e -> token w' = token w) /\
    (r = Return tt ->
     exists text j,
       gateway (login_request (config w) :: posts w) = Reply text /\
       loads (fix_response text) = Some j /\
       py_getitem j "token" = Return (token w')).
Proof.
  unfold login, exchange, install_token.
  destruct (answer loads (gateway (login_request (config w) :: posts w)))
    as [j|e] eqn:Hanswer.
  - destruct (py_in "token" j) as [[|]|e].
    + destruct (py_getitem j "token") as [v|e] eqn:Hget.
      * eexists _, _. split; [reflexivity|]. repeat split; try discriminate.
        intros _. apply answer_return in Hanswer. destruct Hanswer as (text & Hreply & Hloads).
        exists text, j. auto.
      * eexists _, _. split; [reflexivity|]. repeat split; discriminate.
    + eexists _, _. split; [reflexivity|]. repeat split; discriminate.
    + eexists _, _. split; [reflexivity|]. repeat split; discriminate.
  - eexists _, _. split; [reflexivity|]. repeat split; discriminate.
Qed.

Lemma login_installs w text d v :
  gateway (login_request (config w) :: posts w) = Reply text ->
  loads (fix_response text) = Some (JDict d) -> dict_get "token" d = Some v ->
  login loads gateway w =
  Some (Return tt, {| config := config w; token := v;
                      posts := login_request (config w) :: posts w |}).
Proof.
  intros Hreply Hloads Hget.
  unfold login, exchange. rewrite Hreply, (answer_reply _ _ Hloads).
  unfold install_token, py_in, py_getitem. rewrite Hget. reflexivity.
Qed.

End Paths.

(** X11. [refresh_token] always makes exactly one exchange, the login request
    with the password and without a bearer token, also while a token is
    held.  When it raises, the held token is what it was; when it returns,
    the held token is the [token] item of the decoded response. *)
Theorem refresh_token_single_login
    (loads : string -> option json) (gateway : list request -> post_result)
    (fuel : nat) (w : world) :
  (1 <= fuel)%nat ->
  exists r w',
    refresh_token loads gateway fuel w = Some (r, w') /\
    posts w' = login_request (config w) :: posts w /\
    config w' = config w /\
    (forall e, r = Raise e -> token w' = token w) /\
    (r = Return tt ->
     exists text j,
       gateway (login_request (config w) :: posts w) = Reply text /\
       loads (fix_response text) = Some j /\
       py_getitem j "token" = Return (token w')).
Proof.
  intros Hfuel. destruct fuel as [|fuel]; [lia|].
  rewrite refresh_token_login. apply login_frame.
Qed.

Lemma refresh_token_single_login_witness :
  exists r w',
    refresh_token Decoder.json_loads gateway_down 1 (holding (JStr "stale")) = Some (r, w') /\
    posts w' = login_request (config (holding (JStr "stale"))) :: posts (holding (JStr "stale")) /\
    config w' = config (holding (JStr "stale")) /\
    (forall e, r = Raise e -> token w' = token (holding (JStr "stale"))) /\
    (r = Return tt ->
     exists text j,
       gateway_down (login_request (config (holding (JStr "stale")))
                       :: posts (holding (JStr "stale"))) = Reply text /\
       Decoder.json_loads (fix_response text) = Some j /\
       py_getitem j "token" = Return (token w')).
Proof.
  apply (refresh_token_single_login Decoder.json_loads gateway_down 1 (holding (JStr "stale"))).
  lia.
Defined.

(** X12. Without authorization [api_call] makes exactly one exchange, without a
    bearer token, and leaves the held token alone.  Its result is the
    decoded response, [JSONDecodeError] when the text does not decode, a
    [PyVLXException] for a transport failure, and any other exception of the
    transport as it is. *)
Theorem api_call_without_authorization_single_exchange
    (loads : string -> option json) (gateway : list request -> post_result)
    (fuel : nat) (verb action : string) (params : json) (retry : bool) (w : world) :
  (1 <= fuel)%nat ->
  exists r,
    api_call loads gateway fuel verb action params false retry w =
    Some (r, {| config := config w; token := token w;
                posts := plain_request (config w) verb action params :: posts w |}) /\
    (forall text,
        gateway (plain_request (config w) verb action params :: posts w) = Reply text ->
        r = match loads (fix_response text) with
            | Some v => Return v
            | None => Raise JSONDecodeError
            end) /\
    (forall e,
        gateway (plain_request (config w) verb action params :: posts w) = Throws e ->
        (transport_error e = true ->
         exists description, r = Raise (PyVLXException description None)) /\
        (transport_error e = false -> r = Raise e)).
Proof.
  intros Hfuel. destruct fuel as [|fuel]; [lia|].
  rewrite api_call_without_authorization, attempt_plain. unfold exchange.
  eexists. split; [reflexivity|]. split.
  - intros text ->. reflexivity.
  - intros e ->. apply answer_throws.
Qed.

Lemma api_call_without_authorization_single_exchange_witness :
  exists r,
    api_call Decoder.json_loads gateway_down 1 "auth" "login" JNull false false
      (holding (JStr "stale")) =
    Some (r, {| config := klf200; token := JStr "stale";
                posts := [plain_request klf200 "auth" "login" JNull] |}) /\
    (forall text,
        gateway_down [plain_request klf200 "auth" "login" JNull] = Reply text ->
        r = match Decoder.json_loads (fix_response text) with
            | Some v => Return v
            | None => Raise JSONDecodeError
            end) /\
    (forall e,
        gateway_down [plain_request klf200 "auth" "login" JNull] = Throws e ->
        (transport_error e = true ->
         exists description, r = Raise (PyVLXException description None)) /\
        (transport_error e = false -> r = Raise e)).
Proof.
  apply (api_call_without_authorization_single_exchange Decoder.json_loads gateway_down 1
           "auth" "login" JNull false (holding (JStr "stale"))).
  lia.
Defined.

Section HeldToken.

Variable loads : string -> option json.
Variable gateway : list request -> post_result.

(** [api_call_unrolled] with a token in hand starts with the attempt. *)
Lemma api_call_unrolled_held verb action params retry w t :
  token w = JStr t -> t <> EmptyString ->
  api_call_unrolled loads gateway verb action params true retry w =
  try_except_InvalidToken
    (exchange loads gateway (bearer_request (config w) verb action params t))
    (fun invalid_token =>
       if negb retry && true then
         _ <~ login loads gateway ;; second_call loads gateway verb action params
       else raise invalid_token) w.
Proof.
  intros Htoken Ht.
  unfold api_call_unrolled, ensure_token, bind at 1.
  rewrite Htoken, (truthy_nonempty _ Ht). cbn [andb negb].
  unfold try_except_InvalidToken. rewrite (attempt_with_bearer _ _ _ _ _ _ _ Htoken).
  reflexivity.
Qed.

(** [api_call_unrolled] without a token starts with a login. *)
Lemma api_call_unrolled_absent verb action params retry w :
  truthy (token w) = false ->
  api_call_unrolled loads gateway verb action params true retry w =
  match login loads gateway w with
  | Some (Return _, w1) =>
      try_except_InvalidToken
        (_api_call_impl loads gateway verb action params true)
        (fun invalid_token =>
           if negb retry && true then
             _ <~ login loads gateway ;; second_call loads gateway verb action params
           else raise invalid_token) w1
  | Some (Raise e, w1) => Some (Raise e, w1)
  | None => None
  end.
Proof.
  intros Htoken. unfold api_call_unrolled, ensure_token, bind at 1.
  rewrite Htoken. cbn [andb negb]. reflexivity.
Qed.

Lemma second_call_held verb action params w t :
  token w = JStr t -> t <> EmptyString ->
  second_call loads gateway verb action params w =
  exchange loads gateway (bearer_request (config w) verb action params t) w.
Proof.
  intros Htoken Ht. unfold second_call, ensure_token, bind.
  rewrite Htoken, (truthy_nonempty _ Ht). cbn [andb negb].
  apply attempt_with_bearer. exact Htoken.
Qed.

End HeldToken.

(** X13. With a token in hand, an exchange that does not end in [InvalidToken]
    is the only one: [api_call] returns the decoded response as it is,
    whatever it holds (an [errors] envelope too), a transport failure
    becomes a [PyVLXException] and is not tried again, and any other
    exception leaves the call unchanged.  The held token stays. *)
Theorem api_call_with_held_token
    (loads : string -> option json) (gateway : list request -> post_result)
    (fuel : nat) (verb action : string) (params : json) (retry : bool) (w : world)
    (t : string) :
  (3 <= fuel)%nat -> token w = JStr t -> t <> EmptyString ->
  (forall text envelope,
      gateway (bearer_request (config w) verb action params t :: posts w) = Reply text ->
      loads (fix_response text) = Some envelope ->
      api_call loads gateway fuel verb action params true retry w =
      Some (Return envelope,
            {| config := config w; token := JStr t;
               posts := bearer_request (config w) verb action params t :: posts w |})) /\
  (forall e,
      gateway (bearer_request (config w) verb action params t :: posts w) = Throws e ->
      (forall code, e <> InvalidToken code) ->
      exists e',
        api_call loads gateway fuel verb action params true retry w =
        Some (Raise e',
              {| config := config w; token := JStr t;
                 posts := bearer_request (config w) verb action params t :: posts w |}) /\
        (transport_error e = true -> exists description, e' = PyVLXException description None) /\
        (transport_error e = false -> e' = e)).
Proof.
  intros Hfuel Htoken Ht.
  rewrite api_call_unroll by exact Hfuel.
  rewrite (api_call_unrolled_held _ _ _ _ _ _ _ _ Htoken Ht).
  unfold try_except_InvalidToken, exchange, with_post. rewrite Htoken.
  split.
  - intros text envelope -> Hloads. rewrite (answer_reply _ _ _ Hloads). reflexivity.
  - intros e -> Hother.
    destruct e; cbn [answer transport_error];
      try (eexists; split; [reflexivity|]; split; intros H; try discriminate H; eauto).
    now destruct (Hother error_code).
Qed.

Lemma api_call_with_held_token_witness :
  api_call Decoder.json_loads gateway_expired 3 "scenes" "get" JNull true false
    (holding (JStr "stale")) =
  Some (Return (JDict [("errors", JList [JInt 403])]),
        {| config := klf200; token := JStr "stale";
           posts := [bearer_request klf200 "scenes" "get" JNull "stale"] |}).
Proof.
  apply (proj1 (api_call_with_held_token Decoder.json_loads gateway_expired 3
                  "scenes" "get" JNull false (holding (JStr "stale")) "stale"
                  (le_n 3) eq_refl ltac:(discriminate))
           (text "{`errors`:[403]}")); vm_compute; reflexivity.
Defined.

Section LoginFirst.

Variable loads : string -> option json.
Variable gateway : list request -> post_result.

(** After a login that gave the token [s] the call is sent with it. *)
Lemma api_call_unrolled_login_then_call verb action params retry w text d s r w' :
  truthy (token w) = false ->
  gateway (login_request (config w) :: posts w) = Reply text ->
  loads (fix_response text) = Some (JDict d) ->
  dict_get "token" d = Some (JStr s) ->
  api_call_unrolled loads gateway verb action params true retry w = Some (r, w') ->
  exists later,
    posts w' = (later ++ bearer_request (config w) verb action params s
                      :: login_request (config w) :: posts w)%list.
Proof.
  intros Htoken Hlogin Hloads Hget H.
  rewrite (api_call_unrolled_absent _ _ _ _ _ _ _ Htoken) in H.
  rewrite (login_installs _ _ _ _ _ _ Hlogin Hloads Hget) in H.
  unfold try_except_InvalidToken in H.
  rewrite (attempt_with_bearer loads gateway verb action params
             {| config := config w; token := JStr s;
                posts := login_request (config w) :: posts w |} s eq_refl) in H.
  unfold exchange at 1 in H. cbn [config token posts with_post] in H.
  destruct retry; run_cases H.
  all: lazymatch goal with
       | |- exists later, ?l = (later ++ ?base)%list =>
           let new := sent_since l base in exists new; reflexivity
       end.
Qed.

End LoginFirst.

(** X14. When no token is held ([None] or the empty string) and the login
    answers with a string token, [api_call] logs in first and then sends the
    call with that token: these are its first two exchanges, whatever
    follows.  When that call is answered with a text that decodes,
    [api_call] returns the decoded response, the two exchanges are the only
    ones and the new token is held. *)
Theorem api_call_logs_in_first
    (loads : string -> option json) (gateway : list request -> post_result)
    (fuel : nat) (verb action : string) (params : json) (retry : bool) (w : world)
    (text : string) (d : list (string * json)) (s : string) :
  (3 <= fuel)%nat -> truthy (token w) = false ->
  gateway (login_request (config w) :: posts w) = Reply text ->
  loads (fix_response text) = Some (JDict d) ->
  dict_get "token" d = Some (JStr s) ->
  (exists r w' later,
      api_call loads gateway fuel verb action params true retry w = Some (r, w') /\
      posts w' = (later ++ bearer_request (config w) verb action params s
                        :: login_request (config w) :: posts w)%list) /\
  (forall text' envelope,
      gateway (bearer_request (config w) verb action params s
                 :: login_request (config w) :: posts w) = Reply text' ->
      loads (fix_response text') = Some envelope ->
      api_call loads gateway fuel verb action params true retry w =
      Some (Return envelope,
            {| config := config w; token := JStr s;
               posts := bearer_request (config w) verb action params s
                        :: login_request (config w) :: posts w |})).
Proof.
  intros Hfuel Htoken Hlogin Hloads Hget.
  rewrite api_call_unroll by exact Hfuel.
  split.
  - destruct (api_call_unrolled_total loads gateway verb action params true retry w)
      as (r & w' & Hrun).
    destruct (api_call_unrolled_login_then_call _ _ _ _ _ _ _ _ _ _ _ _
                Htoken Hlogin Hloads Hget Hrun) as (later & Hlater).
    exists r, w', later. split; [exact Hrun | exact Hlater].
  - intros text' envelope Hreply Hloads'.
    rewrite (api_call_unrolled_absent _ _ _ _ _ _ _ Htoken).
    rewrite (login_installs _ _ _ _ _ _ Hlogin Hloads Hget).
    unfold try_except_InvalidToken.
    rewrite (attempt_with_bearer loads gateway verb action params
               {| config := config w; token := JStr s;
                  posts := login_request (config w) :: posts w |} s eq_refl).
    unfold exchange, with_post. cbn [config token posts].
    rewrite Hreply, (answer_reply _ _ _ Hloads'). reflexivity.
Qed.

Lemma api_call_logs_in_first_witness :
  api_call Decoder.json_loads gateway_expired 3 "scenes" "get" JNull true false
    (__init__ klf200) =
  Some (Return (JDict [("errors", JList [JInt 403])]),
        {| config := klf200; token := JStr "fresh";
           posts := [bearer_request klf200 "scenes" "get" JNull "fresh";
                     login_request klf200] |}).
Proof.
  apply (proj2 (api_call_logs_in_first Decoder.json_loads gateway_expired 3 "scenes" "get"
                  JNull false (__init__ klf200) (text "{`token`:`fresh`}")
                  [("token", JStr "fresh")] "fresh" (le_n 3) eq_refl eq_refl eq_refl eq_refl)
           (text "{`errors`:[403]}") (JDict [("errors", JList [JInt 403])]));
    vm_compute; reflexivity.
Defined.

(** X15. When no token is held and the login fails, [api_call] raises what
    [refresh_token] raised and the call itself is never sent: the only
    exchange is the login. *)
Theorem api_call_login_failure
    (loads : string -> option json) (gateway : list request -> post_result)
    (fuel : nat) (verb action : string) (params : json) (retry : bool) (w w1 : world)
    (e : exn) :
  truthy (token w) = false ->
  refresh_token loads gateway (S fuel) w = Some (Raise e, w1) ->
  api_call loads gateway (S (S fuel)) verb action params true retry w = Some (Raise e, w1) /\
  posts w1 = login_request (config w) :: posts w /\
  token w1 = token w.
Proof.
  intros Htoken Hrefresh.
  split.
  - rewrite api_call_step, Htoken. cbn [andb negb]. rewrite Hrefresh. reflexivity.
  - rewrite refresh_token_login in Hrefresh.
    destruct (login_frame loads gateway w) as (r & w' & Hlogin & Hposts & _ & Hraise & _).
    rewrite Hlogin in Hrefresh. injection Hrefresh as -> ->.
    split; [exact Hposts | exact (Hraise e eq_refl)].
Qed.

Lemma api_call_login_failure_witness :
  api_call Decoder.json_loads gateway_down 2 "scenes" "get" JNull true false (__init__ klf200) =
  Some (Raise (PyVLXException "OS error when talking to VELUX API" None),
        {| config := klf200; token := JNull; posts := [login_request klf200] |}).
Proof.
  apply (api_call_login_failure Decoder.json_loads gateway_down 0 "scenes" "get" JNull false
           (__init__ klf200)
           {| config := klf200; token := JNull; posts := [login_request klf200] |}
           (PyVLXException "OS error when talking to VELUX API" None));
    vm_compute; reflexivity.
Defined.

(** X16. A non-empty string token is held and [retry] is [False].  When the
    attempt raises [InvalidToken] and the login that follows answers with a
    non-empty string token, the handler sends the same call once more with
    the new token, and the second outcome is final: a decoded response is
    returned, a second [InvalidToken] is raised to the caller.  Either way
    three exchanges were made (attempt, login, attempt) and the new token
    is held. *)
Theorem api_call_retries_after_invalid_token
    (loads : string -> option json) (gateway : list request -> post_result)
    (fuel : nat) (verb action : string) (params : json) (w : world)
    (t s : string) (code : json) (text : string) (d : list (string * json)) :
  (3 <= fuel)%nat -> token w = JStr t -> t <> EmptyString -> s <> EmptyString ->
  gateway (bearer_request (config w) verb action params t :: posts w) =
    Throws (InvalidToken code) ->
  gateway (login_request (config w)
             :: bearer_request (config w) verb action params t :: posts w) = Reply text ->
  loads (fix_response text) = Some (JDict d) ->
  dict_get "token" d = Some (JStr s) ->
  let sent := bearer_request (config w) verb action params s
              :: login_request (config w)
              :: bearer_request (config w) verb action params t :: posts w in
  (forall text' envelope,
      gateway sent = Reply text' -> loads (fix_response text') = Some envelope ->
      api_call loads gateway fuel verb action params true false w =
      Some (Return envelope, {| config := config w; token := JStr s; posts := sent |})) /\
  (forall code',
      gateway sent = Throws (InvalidToken code') ->
      api_call loads gateway fuel verb action params true false w =
      Some (Raise (InvalidToken code'),
            {| config := config w; token := JStr s; posts := sent |})).
Proof.
  intros Hfuel Htoken Ht Hs Hfirst Hlogin Hloads Hget.
  split; [intros text' envelope Hreply Hloads' | intros code' Hreply].
  all: rewrite api_call_unroll by exact Hfuel.
  all: rewrite (api_call_unrolled_held _ _ _ _ _ _ _ _ Htoken Ht).
  all: unfold try_except_InvalidToken, exchange at 1.
  all: rewrite Hfirst; cbn [answer negb andb]; unfold bind.
  all: rewrite (login_installs loads gateway
                  (with_post (bearer_request (config w) verb action params t) w)
                  text d (JStr s) Hlogin Hloads Hget).
  all: cbn [config posts token with_post].
  all: rewrite (second_call_held loads gateway verb action params
                  {| config := config w; token := JStr s;
                     posts := login_request (config w)
                              :: bearer_request (config w) verb action params t
                              :: posts w |}
                  s eq_refl Hs).
  all: unfold exchange, with_post; cbn [config token posts]; rewrite Hreply.
  - rewrite (answer_reply _ _ _ Hloads'). reflexivity.
  - reflexivity.
Qed.

Lemma api_call_retries_after_invalid_token_witness :
  api_call Decoder.json_loads gateway_rejecting 3 "scenes" "get" JNull true false
    (holding (JStr "stale")) =
  Some (Raise (InvalidToken (JInt 403)),
        {| config := klf200; token := JStr "fresh";
           posts := [bearer_request klf200 "scenes" "get" JNull "fresh";
                     login_request klf200;
                     bearer_request klf200 "scenes" "get" JNull "stale"] |}).
Proof.
  apply (proj2 (api_call_retries_after_invalid_token Decoder.json_loads gateway_rejecting 3
                  "scenes" "get" JNull (holding (JStr "stale")) "stale" "fresh" (JInt 403)
                  (text "{`token`:`fresh`}") [("token", JStr "fresh")]
                  (le_n 3) eq_refl ltac:(discriminate) ltac:(discriminate)
                  eq_refl eq_refl eq_refl eq_refl)).
  vm_compute. reflexivity.
Defined.



(** X18. [PyVLX.connect] and then [PyVLX.disconnect] on a new interface,
    with a gateway that answers the login with a non-empty string token and
    the logout with a text that decodes: two exchanges, the login and the
    logout with the token of the login, and no token is held at the end. *)
Theorem connect_then_disconnect
    (loads : string -> option json) (gateway : list request -> post_result)
    (fuel : nat) (cfg : Config) (text : string) (d : list (string * json)) (s : string)
    (text' : string) (envelope : json) :
  (3 <= fuel)%nat -> s <> EmptyString ->
  gateway [login_request cfg] = Reply text ->
  loads (fix_response text) = Some (JDict d) ->
  dict_get "token" d = Some (JStr s) ->
  gateway [bearer_request cfg "auth" "logout" (JDict []) s; login_request cfg] = Reply text' ->
  loads (fix_response text') = Some envelope ->
  (_ <~ PyVLX.connect loads gateway fuel ;; PyVLX.disconnect loads gateway fuel)
    (__init__ cfg) =
  Some (Return tt,
        {| config := cfg; token := JNull;
           posts := [bearer_request cfg "auth" "logout" (JDict []) s; login_request cfg] |}).
Proof.
  intros Hfuel Hs Hlogin Hloads Hget Hreply Hloads'.
  unfold PyVLX.connect, PyVLX.disconnect, bind at 1.
  destruct fuel as [|fuel]; [lia|].
  rewrite refresh_token_login.
  rewrite (login_installs loads gateway (__init__ cfg) text d (JStr s) Hlogin Hloads Hget).
  cbn [config posts token __init__].
  unfold disconnect, bind. rewrite api_call_unroll by exact Hfuel.
  rewrite (api_call_unrolled_held loads gateway "auth" "logout" (JDict []) false
             {| config := cfg; token := JStr s; posts := [login_request cfg] |}
             s eq_refl Hs).
  unfold try_except_InvalidToken, exchange, with_post. cbn [config token posts __init__].
  rewrite Hreply, (answer_reply _ _ _ Hloads'). reflexivity.
Qed.

Lemma connect_then_disconnect_witness :
  (_ <~ PyVLX.connect Decoder.json_loads gateway_expired 3 ;;
   PyVLX.disconnect Decoder.json_loads gateway_expired 3) (__init__ klf200) =
  Some (Return tt,
        {| config := klf200; token := JNull;
           posts := [bearer_request klf200 "auth" "logout" (JDict []) "fresh";
                     login_request klf200] |}).
Proof.
  apply (connect_then_disconnect Decoder.json_loads gateway_expired 3 klf200
           (text "{`token`:`fresh`}") [("token", JStr "fresh")] "fresh"
           (text "{`errors`:[403]}") (JDict [("errors", JList [JInt 403])]));
    first [lia | discriminate | vm_compute; reflexivity].
Defined.


(** X19. What a call with authorization leaves alone: the configuration; the
    requests sent before; the held token, unless a login was made.  Every
    request it sends without a bearer token is the login request. *)
Theorem api_call_frame
    (loads : string -> option json) (gateway : list request -> post_result)
    (fuel : nat) (verb action : string) (params : json) (retry : bool) (w : world) :
  (3 <= fuel)%nat ->
  exists r w' new,
    api_call loads gateway fuel verb action params true retry w = Some (r, w') /\
    posts w' = (new ++ posts w)%list /\
    config w' = config w /\
    Forall (fun q => q = login_request (config w)) (unauthorized new) /\
    (unauthorized new = [] -> token w' = token w).
Proof.
  intros Hfuel.
  destruct (api_call_unrolled_total loads gateway verb action params true retry w)
    as (r & w' & Hrun).
  destruct (api_call_unrolled_frame _ _ _ _ _ _ _ _ _ Hrun) as (new & Hnew).
  exists r, w', new. split; [|exact Hnew].
  rewrite api_call_unroll by exact Hfuel. exact Hrun.
Qed.

Lemma api_call_frame_witness :
  exists r w' new,
    api_call Decoder.json_loads gateway_rejecting 3 "scenes" "get" JNull true false
      (holding (JStr "stale")) = Some (r, w') /\
    posts w' = (new ++ posts (holding (JStr "stale")))%list /\
    config w' = config (holding (JStr "stale")) /\
    Forall (fun q => q = login_request (config (holding (JStr "stale")))) (unauthorized new) /\
    (unauthorized new = [] -> token w' = token (holding (JStr "stale"))).
Proof.
  apply (api_call_frame Decoder.json_loads gateway_rejecting 3 "scenes" "get" JNull false
           (holding (JStr "stale"))).
  lia.
Defined.

(** X20. After [disconnect] has returned, the next call with authorization
    starts with a login: its first exchange is the login request. *)
Theorem api_call_after_disconnect
    (loads : string -> option json) (gateway : list request -> post_result)
    (fuel : nat) (verb action : string) (params : json) (retry : bool) (w w1 : world) :
  (3 <= fuel)%nat ->
  disconnect loads gateway fuel w = Some (Return tt, w1) ->
  exists r w2 new,
    api_call loads gateway fuel verb action params true retry w1 = Some (r, w2) /\
    posts w2 = (new ++ login_request (config w) :: posts w1)%list.
Proof.
  intros Hfuel Hdisconnect.
  unfold disconnect, bind in Hdisconnect.
  rewrite api_call_unroll in Hdisconnect by exact Hfuel.
  destruct (api_call_unrolled loads gateway "auth" "logout" (JDict []) true false w)
    as [[[v|e] w0]|] eqn:Hlogout; try discriminate Hdisconnect.
  unfold set_token in Hdisconnect. injection Hdisconnect as <-.
  destruct (api_call_unrolled_frame _ _ _ _ _ _ _ _ _ Hlogout) as (sent & _ & Hconfig & _).
  destruct (api_call_unrolled_total loads gateway verb action params true retry
              (with_token JNull w0)) as (r & w2 & Hrun).
  destruct (api_call_unrolled_login_first loads gateway verb action params retry
              (with_token JNull w0) r w2 eq_refl Hrun) as (new & Hnew).
  exists r, w2, new. split.
  - rewrite api_call_unroll by exact Hfuel. exact Hrun.
  - rewrite Hnew. cbn [config with_token]. now rewrite Hconfig.
Qed.

Lemma api_call_after_disconnect_witness :
  exists r w2 new,
    api_call Decoder.json_loads gateway_expired 3 "scenes" "get" JNull true false
      {| config := klf200; token := JNull;
         posts := [bearer_request klf200 "auth" "logout" (JDict []) "stale"] |} =
    Some (r, w2) /\
    posts w2 = (new ++ login_request (config (holding (JStr "stale")))
                    :: [bearer_request klf200 "auth" "logout" (JDict []) "stale"])%list.
Proof.
  apply (api_call_after_disconnect Decoder.json_loads gateway_expired 3 "scenes" "get" JNull
           false (holding (JStr "stale"))
           {| config := klf200; token := JNull;
              posts := [bearer_request klf200 "auth" "logout" (JDict []) "stale"] |}).
  - lia.
  - vm_compute. reflexivity.
Defined.
